(** * Hugdl: a sequential HuggingFace model downloader

    Shallow embedding of the two programs of the repository,
    [main.go] (full version, progress bars) and the simple version (the
    README calls it [hugdl.go]), and proofs of the properties their
    specification states.

    Layout:
    - [Go]: the part of Go's standard library the programs call
      ([strings], [path/filepath], [fmt.Errorf], [net/http], [os], [io]),
      with the outside world (network, disk, JSON decoder) as oracles;
    - [Full]: [main.go];
    - [Simple]: [hugdl.go];
    - the theorems. *)

From Stdlib Require Import ZArith Ascii String List Bool Lia.
From stdpp Require Import gmap strings list.

Local Open Scope string_scope.
Local Open Scope list_scope.

(* ===================================================================== *)
(** * The Go library, as far as the programs use it *)
(* ===================================================================== *)

Module Go.

(** ** package strings *)

(** [strings.HasPrefix(s, prefix)]. *)
Fixpoint HasPrefix (s prefix : string) : bool :=
  match prefix, s with
  | EmptyString, _ => true
  | String p prefix', String c s' => Ascii.eqb c p && HasPrefix s' prefix'
  | String _ _, EmptyString => false
  end.

(** The scan of [strings.Replace(s, old, new, -1)] for a non-empty [old]:
    left to right, non-overlapping.  [skip] counts the bytes of a match
    that are still to be passed over. *)
Fixpoint replace_from (old new : string) (skip : nat) (s : string) : string :=
  match s with
  | EmptyString => EmptyString
  | String c s' =>
      match skip with
      | S k => replace_from old new k s'
      | O =>
          if HasPrefix s old
          then new +:+ replace_from old new (String.length old - 1) s'
          else String c (replace_from old new 0 s')
      end
  end.

(** An empty [old] matches before every character and at the end (Go cuts
    at UTF-8 sequences; on ASCII text these are the bytes). *)
Fixpoint replace_empty (new : string) (s : string) : string :=
  match s with
  | EmptyString => new
  | String c s' => new +:+ String c (replace_empty new s')
  end.

(** [strings.ReplaceAll(s, old, new)]. *)
Definition ReplaceAll (s old new : string) : string :=
  match old with
  | EmptyString => replace_empty new s
  | String _ _ => replace_from old new 0 s
  end.

(** [strings.Repeat(s, count)]. *)
Fixpoint Repeat (s : string) (count : nat) : string :=
  match count with
  | O => EmptyString
  | S k => s +:+ Repeat s k
  end.

(** [strings.Join(elems, sep)]. *)
Fixpoint strings_Join (elems : list string) (sep : string) : string :=
  match elems with
  | [] => EmptyString
  | [e] => e
  | e :: rest => e +:+ sep +:+ strings_Join rest sep
  end.

(** ** package path/filepath *)

(** What differs between targets: the separator bytes, the length of a
    leading volume name, and [Join] (built on the target's [Clean]). *)
Record Platform := {
  Separator : ascii;
  IsPathSeparator : ascii -> bool;
  volumeNameLen : string -> nat;
  Join : list string -> string
}.

Fixpoint drop_string (n : nat) (s : string) : string :=
  match n, s with
  | O, _ => s
  | S _, EmptyString => EmptyString
  | S k, String _ s' => drop_string k s'
  end.

Definition string_rev (s : string) : string :=
  string_of_list_ascii (rev (list_ascii_of_string s)).

(** Drops the leading characters that satisfy [p]. *)
Fixpoint string_drop_while (p : ascii -> bool) (s : string) : string :=
  match s with
  | EmptyString => EmptyString
  | String c s' => if p c then string_drop_while p s' else s
  end.

(** Keeps the leading characters that satisfy [p]. *)
Fixpoint string_take_while (p : ascii -> bool) (s : string) : string :=
  match s with
  | EmptyString => EmptyString
  | String c s' => if p c then String c (string_take_while p s') else EmptyString
  end.

Section Filepath.
Variable P : Platform.

(** The loop [for len(path) > 0 && IsPathSeparator(path[len(path)-1])]
    of [Base]: strip trailing separators. *)
Definition strip_trailing_separators (path : string) : string :=
  string_rev (string_drop_while (IsPathSeparator P) (string_rev path)).

(** The loop [for i >= 0 && !IsPathSeparator(path[i]) { i-- }] followed
    by [path = path[i+1:]]: what follows the last separator. *)
Definition last_element (path : string) : string :=
  string_rev
    (string_take_while (fun c => negb (IsPathSeparator P c)) (string_rev path)).

(** [filepath.Base(path)]. *)
Definition Base (path : string) : string :=
  match path with
  | EmptyString => "."
  | String _ _ =>
      let path := strip_trailing_separators path in
      let path := drop_string (volumeNameLen P path) path in
      let path := last_element path in
      match path with
      | EmptyString => String (Separator P) EmptyString
      | String _ _ => path
      end
  end.
End Filepath.

(** *** The Unix target *)

Definition slash : ascii := "/"%char.

Definition is_slash (c : ascii) : bool := Ascii.eqb c slash.

(** The elements of a path: the text between separators. *)
Fixpoint split_elements (cur : string) (path : string) : list string :=
  match path with
  | EmptyString => [string_rev cur]
  | String c path' =>
      if is_slash c then string_rev cur :: split_elements EmptyString path'
      else split_elements (String c cur) path'
  end.

(** One step of [Clean]'s scan over the elements; [out] is the output so
    far, last element first. *)
Definition clean_step (rooted : bool) (out : list string) (e : string)
  : list string :=
  if String.eqb e "" then out
  else if String.eqb e "." then out
  else if String.eqb e ".." then
    match out with
    | top :: out' =>
        if String.eqb top ".." then ".." :: out else out'
    | [] => if rooted then [] else [".."]
    end
  else e :: out.

(** [filepath.Clean(path)] on Unix. *)
Definition unix_Clean (path : string) : string :=
  match path with
  | EmptyString => "."
  | String c _ =>
      let rooted := is_slash c in
      let out := fold_left (clean_step rooted) (split_elements "" path) [] in
      let body := strings_Join (rev out) "/" in
      if rooted then "/" +:+ body
      else match body with EmptyString => "." | String _ _ => body end
  end.

(** [filepath.Join(elem...)] on Unix: from the first non-empty element on,
    joined with the separator and cleaned. *)
Fixpoint unix_Join (elem : list string) : string :=
  match elem with
  | [] => EmptyString
  | e :: rest =>
      if String.eqb e "" then unix_Join rest
      else unix_Clean (strings_Join elem "/")
  end.

Definition unix : Platform := {|
  Separator := slash;
  IsPathSeparator := is_slash;
  volumeNameLen := fun _ => 0;
  Join := unix_Join
|}.

(** ** errors and fmt.Errorf *)

(** A Go [error] value.  The constructors are the ways the programs and
    their libraries build one. *)
Inductive error :=
| errorString (msg : string)            (* an error made by a library *)
| wrapError (msg : string) (err : error) (* fmt.Errorf(msg + "%w", err) *)
| statusError (msg : string) (code : Z). (* fmt.Errorf(msg + "%d", code) *)

(** The integers an error value was formatted with. *)
Fixpoint error_codes (e : error) : list Z :=
  match e with
  | errorString _ => []
  | wrapError _ err => error_codes err
  | statusError _ code => [code]
  end.

(** ** package net/http *)

Definition StatusOK : Z := 200.

Record Request := {
  Method : string;
  URL : string;
  Header : gmap string string
}.

(** A response: its status, the bytes its body delivers, and the read
    error that ends the body when it does not end in EOF. *)
Record Response := {
  StatusCode : Z;
  Body : list Byte.byte;
  BodyErr : option error
}.

(** The element type of the listing, [struct { Type; Path; Size }] with
    its JSON tags, is anonymous in both programs: one Go type. *)
Record TreeItem := {
  item_Type : string;
  item_Path : string;
  item_Size : Z
}.

(** ** package os: the disk *)

Record FS := {
  files : gmap string (list Byte.byte);
  dirs : gset string
}.

(** ** The world outside the program

    Everything the programs cannot decide themselves is an oracle:
    the theorems hold for every network, disk and decoder. *)
Record Env := {
  (** [url.Parse] inside [http.NewRequest]: the error for a bad URL. *)
  parse_error : string -> option error;
  (** [Client.Do]: the answer to a request, given the requests sent before. *)
  round_trip : list Request -> Request -> error + Response;
  (** [json.NewDecoder(body).Decode(&apiResponse)]. *)
  json_Decode : list Byte.byte -> option error -> error + list TreeItem;
  (** [os.MkdirAll(path, 0755)]: the error, if it fails. *)
  mkdir_error : FS -> string -> option error;
  (** [os.Create(path)]: the error, if it fails. *)
  create_error : FS -> string -> option error;
  (** Writing a body to the file at a path, with a progress bar of the
      given maximum attached or not: [Some (n, e)] when the sink takes
      only [n] bytes and then fails with [e]. *)
  write_limit : FS -> string -> option Z -> list Byte.byte -> option (nat * error)
}.

(** ** Console output

    One constructor per print statement of the programs, with the values
    it formats. *)
Inductive Line :=
| Println (text : string)
| PrintDefaults                                 (* flag.PrintDefaults() *)
| PrintModel (modelName : string)               (* "📦 Model: %s\n" *)
| PrintOutput (modelDir : string)               (* "📁 Output: %s\n" *)
| PrintListError (err : error)      (* "❌ Error getting model files: %v\n" *)
| PrintFound (n : nat)                          (* "✅ Found %d files\n" *)
| PrintMkdirError (err : error)       (* "❌ Error creating directory: %v\n" *)
| PrintDownloading (i n : nat) (path : string)  (* "[%d/%d] Downloading %s...\n" *)
| PrintFailed (path : string) (err : error)     (* "❌ Failed to download %s: %v\n" *)
| PrintDownloaded (path : string)               (* "✅ Downloaded %s\n" *)
| PrintFileStart (name : string) (size : Z)     (* "   📥 Downloading %s (%d bytes)...\n" *)
| PrintFileDone (name : string) (written : Z)   (* "   ✅ Downloaded %s (%d bytes)\n" *)
| PrintComplete (successCount n : nat)
    (* "🎉 Download complete! %d/%d files downloaded successfully\n" *)
| PrintSaved (modelDir : string).               (* "📁 Files saved to: %s\n" *)

(** ** Program state and the monad that threads it *)

Record World := {
  fs : FS;
  sent : list Request;   (* requests sent so far, oldest first *)
  console : list Line    (* lines printed so far, oldest first *)
}.

Definition M (A : Type) : Type := World -> A * World.

Definition ret {A} (a : A) : M A := fun w => (a, w).

Definition bind {A B} (m : M A) (k : A -> M B) : M B :=
  fun w => let (a, w') := m w in k a w'.

(** The world after one more line on the console. *)
Definition add_line (w : World) (l : Line) : World :=
  {| fs := fs w; sent := sent w; console := console w ++ [l] |}.

Definition print (l : Line) : M unit := fun w => (tt, add_line w l).

Section Runtime.
Variable E : Env.

(** [http.NewRequest(method, url, nil)]. *)
Definition NewRequest (method url : string) : error + Request :=
  match parse_error E url with
  | Some err => inl err
  | None => inr {| Method := method; URL := url; Header := ∅ |}
  end.

(** [req.Header.Set(key, value)]. *)
Definition Header_Set (req : Request) (key value : string) : Request :=
  {| Method := Method req; URL := URL req;
     Header := <[key := value]> (Header req) |}.

(** [client.Do(req)]. *)
Definition Client_Do (req : Request) : M (error + Response) :=
  fun w =>
    (round_trip E (sent w) req,
     {| fs := fs w; sent := sent w ++ [req]; console := console w |}).

(** [http.Get(url)]. *)
Definition Get (url : string) : M (error + Response) :=
  match NewRequest "GET" url with
  | inl err => ret (inl err)
  | inr req => Client_Do req
  end.

(** [os.MkdirAll(path, 0755)]. *)
Definition MkdirAll (path : string) : M (option error) :=
  fun w =>
    match mkdir_error E (fs w) path with
    | Some err => (Some err, w)
    | None =>
        (None,
         {| fs := {| files := files (fs w); dirs := {[path]} ∪ dirs (fs w) |};
            sent := sent w; console := console w |})
    end.

(** [os.Create(path)]: the file is created, or truncated if it exists. *)
Definition Create (path : string) : M (option error) :=
  fun w =>
    match create_error E (fs w) path with
    | Some err => (Some err, w)
    | None =>
        (None,
         {| fs := {| files := <[path := []]> (files (fs w)); dirs := dirs (fs w) |};
            sent := sent w; console := console w |})
    end.

(** [io.Copy(dst, resp.Body)] where [dst] is the file at [path], alone
    or behind [io.MultiWriter(out, bar)]: the bytes copied land in the
    file; the result is their count and the first error met.  A copy
    without error has written the whole body, and the body ended in EOF.
    (Only the simple version looks at the count, and it has no bar.) *)
Definition Copy (path : string) (bar : option Z) (resp : Response)
  : M (Z * option error) :=
  fun w =>
    let (data, err) :=
      match write_limit E (fs w) path bar (Body resp) with
      | Some (n, e) =>
          if (n <? List.length (Body resp))%nat then (take n (Body resp), Some e)
          else (Body resp, BodyErr resp)
      | None => (Body resp, BodyErr resp)
      end in
    ((Z.of_nat (List.length data), err),
     {| fs := {| files := <[path := data]> (files (fs w)); dirs := dirs (fs w) |};
        sent := sent w; console := console w |}).
End Runtime.

Declare Scope go_scope.
Delimit Scope go_scope with go.
Notation "x <- m ;; k" := (bind m (fun x => k))
  (at level 100, m at next level, right associativity) : go_scope.
Notation "m ;;; k" := (bind m (fun _ => k))
  (at level 100, right associativity) : go_scope.

End Go.

(* ===================================================================== *)
(** * main.go: the full version *)
(* ===================================================================== *)

Module Full.
Import Go.
Local Open Scope go_scope.

(** [type ModelInfo struct]. *)
Record ModelInfo := {
  Name : string;
  Type_ : string;
  Size : Z;
  Path : string
}.

(** [type DownloadConfig struct]. *)
Record DownloadConfig := {
  ModelName : string;
  BaseURL : string;
  APIURL : string;
  OutputDir : string;
  ModelDir : string
}.

(** The command line after [flag.Parse()]. *)
Record Flags := {
  modelName : string;
  outputDir : string;
  help : bool
}.

Definition title : string := "🚀 Go Model Downloader (Full Version)".

(** The loop of [getModelFiles] over the decoded listing:
    [if item.Type == "file" { files = append(files, ModelInfo{...}) }]. *)
Definition append_file (P : Platform) (files : list ModelInfo) (item : TreeItem)
  : list ModelInfo :=
  if String.eqb (item_Type item) "file" then
    files ++ [{| Name := Base P (item_Path item);
                 Type_ := item_Type item;
                 Size := item_Size item;
                 Path := item_Path item |}]
  else files.

Section Program.
Variable P : Platform.
Variable E : Env.

(** [func getModelFiles]: the listing, or [nil] and an error. *)
Definition getModelFiles (config : DownloadConfig) : M (list ModelInfo * option error) :=
  let apiURL := APIURL config +:+ "/models/" +:+ ModelName config +:+ "/tree/main" in
  r <- Get E apiURL ;;
  match r with
  | inl err => ret ([], Some (wrapError "failed to fetch model info: " err))
  | inr resp =>
      if negb (StatusCode resp =? StatusOK)%Z then
        ret ([], Some (statusError "API returned status: " (StatusCode resp)))
      else
        match json_Decode E (Body resp) (BodyErr resp) with
        | inl err =>
            ret ([], Some (wrapError "failed to decode API response: " err))
        | inr apiResponse =>
            ret (fold_left (append_file P) apiResponse [], None)
        end
  end.

(** [func downloadFile]: [nil], or the error of the first step that
    failed. *)
Definition downloadFile (config : DownloadConfig) (file : ModelInfo) : M (option error) :=
  let downloadURL :=
    BaseURL config +:+ "/" +:+ ModelName config +:+ "/resolve/main/" +:+ Path file in
  let outputPath := Join P [ModelDir config; Name file] in
  match NewRequest E "GET" downloadURL with
  | inl err => ret (Some (wrapError "failed to create request: " err))
  | inr req =>
      let req := Header_Set req "User-Agent"
        "Mozilla/5.0 (Windows NT 10.0; Win64; x64) AppleWebKit/537.36" in
      let req := Header_Set req "Accept" "*/*" in
      r <- Client_Do E req ;;
      match r with
      | inl err => ret (Some (wrapError "failed to download: " err))
      | inr resp =>
          if negb (StatusCode resp =? StatusOK)%Z then
            ret (Some (statusError "download failed with status: "
                         (StatusCode resp)))
          else
            c <- Create E outputPath ;;
            match c with
            | Some err =>
                ret (Some (wrapError "failed to create output file: " err))
            | None =>
              let bar := if (Size file >? 0)%Z then Some (Size file) else None in
              c <- match bar with
                   | Some max => Copy E outputPath (Some max) resp
                   | None => Copy E outputPath None resp
                   end ;;
              match snd c with
              | Some err => ret (Some (wrapError "failed to save file: " err))
              | None => ret None
              end
            end
      end
  end.

(** The loop [for i, file := range files] of [main]; [n] is
    [len(files)] of the whole listing, [i] the index of the next file. *)
Fixpoint download_all (config : DownloadConfig) (n i : nat)
    (files : list ModelInfo) (successCount : nat) : M nat :=
  match files with
  | [] => ret successCount
  | file :: rest =>
      print (PrintDownloading (i + 1) n (Path file)) ;;;
      r <- downloadFile config file ;;
      match r with
      | Some err =>
          print (PrintFailed (Path file) err) ;;;
          download_all config n (S i) rest successCount
      | None =>
          print (PrintDownloaded (Path file)) ;;;
          download_all config n (S i) rest (S successCount)
      end
  end.

(** The configuration [main] builds from the flags: the struct literal
    (its [ModelDir] still the zero value), then
    [modelDirName := strings.ReplaceAll(config.ModelName, "/", "_")] and
    [config.ModelDir = filepath.Join(config.OutputDir, modelDirName)]. *)
Definition configure (flags : Flags) : DownloadConfig :=
  let config := {| ModelName := modelName flags;
                   BaseURL := "https://huggingface.co";
                   APIURL := "https://huggingface.co/api";
                   OutputDir := outputDir flags;
                   ModelDir := "" |} in
  let modelDirName := ReplaceAll (ModelName config) "/" "_" in
  {| ModelName := ModelName config;
     BaseURL := BaseURL config;
     APIURL := APIURL config;
     OutputDir := OutputDir config;
     ModelDir := Join P [OutputDir config; modelDirName] |}.

(** [func main]: the result is the exit code of the process, [0] when
    [main] returns and [1] after [os.Exit(1)]. *)
Definition main (flags : Flags) : M Z :=
  if help flags then
    print (Println title) ;;;
    print (Println (Repeat "=" 50)) ;;;
    print (Println "Usage: go run main.go [options]") ;;;
    print (Println "") ;;;
    print (Println "Options:") ;;;
    print PrintDefaults ;;;
    print (Println "") ;;;
    print (Println "Examples:") ;;;
    print (Println "  go run main.go -model Qwen/Qwen2.5-Coder-0.5B") ;;;
    print (Println "  go run main.go -model microsoft/DialoGPT-medium") ;;;
    print (Println "  go run main.go -model meta-llama/Llama-2-7b-chat-hf -output D:\models") ;;;
    ret 0%Z
  else
    print (Println title) ;;;
    print (Println (Repeat "=" 50)) ;;;
    let config := configure flags in
    print (PrintModel (ModelName config)) ;;;
    print (PrintOutput (ModelDir config)) ;;;
    print (Println (Repeat "=" 50)) ;;;
    print (Println "🔍 Checking available files...") ;;;
    l <- getModelFiles config ;;
    let files := fst l in
    match snd l with
    | Some err => print (PrintListError err) ;;; ret 1%Z
    | None =>
        print (PrintFound (List.length files)) ;;;
        m <- MkdirAll E (ModelDir config) ;;
        match m with
        | Some err => print (PrintMkdirError err) ;;; ret 1%Z
        | None =>
            print (Println (String "010" "📥 Starting downloads...")) ;;;
            print (Println (Repeat "-" 50)) ;;;
            successCount <- download_all config (List.length files) 0 files 0 ;;
            print (Println (Repeat "=" 50)) ;;;
            print (PrintComplete successCount (List.length files)) ;;;
            print (PrintSaved (ModelDir config)) ;;;
            ret 0%Z
        end
    end.
End Program.

End Full.

(* ===================================================================== *)
(** * hugdl.go: the simple version *)
(* ===================================================================== *)

Module Simple.
Import Go.
Local Open Scope go_scope.

(** [type ModelInfo struct]. *)
Record ModelInfo := {
  Name : string;
  Type_ : string;
  Size : Z;
  Path : string
}.

(** The command line after [flag.Parse()]. *)
Record Flags := {
  modelName : string;
  outputDir : string;
  help : bool
}.

Definition title : string := "🚀 hugdl - Fast HuggingFace Model Downloader".

(** The loop of [getModelFiles] over the decoded listing:
    [if item.Type == "file" { files = append(files, ModelInfo{...}) }]. *)
Definition append_file (P : Platform) (files : list ModelInfo) (item : TreeItem)
  : list ModelInfo :=
  if String.eqb (item_Type item) "file" then
    files ++ [{| Name := Base P (item_Path item);
                 Type_ := item_Type item;
                 Size := item_Size item;
                 Path := item_Path item |}]
  else files.

Section Program.
Variable P : Platform.
Variable E : Env.

(** [func getModelFiles]: the listing, or [nil] and an error. *)
Definition getModelFiles (apiURL modelName : string) : M (list ModelInfo * option error) :=
  let url := apiURL +:+ "/models/" +:+ modelName +:+ "/tree/main" in
  r <- Get E url ;;
  match r with
  | inl err => ret ([], Some (wrapError "failed to fetch model info: " err))
  | inr resp =>
      if negb (StatusCode resp =? StatusOK)%Z then
        ret ([], Some (statusError "API returned status: " (StatusCode resp)))
      else
        match json_Decode E (Body resp) (BodyErr resp) with
        | inl err =>
            ret ([], Some (wrapError "failed to decode API response: " err))
        | inr apiResponse =>
            ret (fold_left (append_file P) apiResponse [], None)
        end
  end.

(** [func downloadFile]: [nil], or the error of the first step that
    failed. *)
Definition downloadFile (baseURL modelName modelDir : string) (file : ModelInfo) : M (option error) :=
  let downloadURL :=
    baseURL +:+ "/" +:+ modelName +:+ "/resolve/main/" +:+ Path file in
  let outputPath := Join P [modelDir; Name file] in
  match NewRequest E "GET" downloadURL with
  | inl err => ret (Some (wrapError "failed to create request: " err))
  | inr req =>
      let req := Header_Set req "User-Agent"
        "Mozilla/5.0 (Windows NT 10.0; Win64; x64) AppleWebKit/537.36" in
      let req := Header_Set req "Accept" "*/*" in
      r <- Client_Do E req ;;
      match r with
      | inl err => ret (Some (wrapError "failed to download: " err))
      | inr resp =>
          if negb (StatusCode resp =? StatusOK)%Z then
            ret (Some (statusError "download failed with status: "
                         (StatusCode resp)))
          else
            c <- Create E outputPath ;;
            match c with
            | Some err =>
                ret (Some (wrapError "failed to create output file: " err))
            | None =>
              print (PrintFileStart (Name file) (Size file)) ;;;
              c <- Copy E outputPath None resp ;;
              let written := fst c in
              match snd c with
              | Some err => ret (Some (wrapError "failed to save file: " err))
              | None => print (PrintFileDone (Name file) written) ;;; ret None
              end
            end
      end
  end.

(** The loop [for i, file := range files] of [main]; [n] is
    [len(files)] of the whole listing, [i] the index of the next file. *)
Fixpoint download_all (baseURL modelName modelDir : string) (n i : nat)
    (files : list ModelInfo) (successCount : nat) : M nat :=
  match files with
  | [] => ret successCount
  | file :: rest =>
      print (PrintDownloading (i + 1) n (Path file)) ;;;
      r <- downloadFile baseURL modelName modelDir file ;;
      match r with
      | Some err =>
          print (PrintFailed (Path file) err) ;;;
          download_all baseURL modelName modelDir n (S i) rest successCount
      | None =>
          print (PrintDownloaded (Path file)) ;;;
          download_all baseURL modelName modelDir n (S i) rest (S successCount)
      end
  end.

(** The directory [main] computes from the flags:
    [modelDirName := strings.ReplaceAll(m, "/", "_")] for the value [m]
    of the flag [-model], and [modelDir := filepath.Join(o, modelDirName)]
    for the value [o] of the flag [-output]. *)
Definition modelDir (flags : Flags) : string :=
  let modelDirName := ReplaceAll (modelName flags) "/" "_" in
  Join P [outputDir flags; modelDirName].

(** [func main]: the result is the exit code of the process, [0] when
    [main] returns and [1] after [os.Exit(1)]. *)
Definition main (flags : Flags) : M Z :=
  if help flags then
    print (Println title) ;;;
    print (Println (Repeat "=" 50)) ;;;
    print (Println "Usage: hugdl [options]") ;;;
    print (Println "") ;;;
    print (Println "Options:") ;;;
    print PrintDefaults ;;;
    print (Println "") ;;;
    print (Println "Examples:") ;;;
    print (Println "  hugdl -model Qwen/Qwen2.5-Coder-0.5B") ;;;
    print (Println "  hugdl -model microsoft/DialoGPT-medium") ;;;
    print (Println "  hugdl -model meta-llama/Llama-2-7b-chat-hf -output D:\models") ;;;
    ret 0%Z
  else
    print (Println title) ;;;
    print (Println (Repeat "=" 50)) ;;;
    let baseURL := "https://huggingface.co" in
    let apiURL := "https://huggingface.co/api" in
    let modelDir := modelDir flags in
    print (PrintModel (modelName flags)) ;;;
    print (PrintOutput (modelDir)) ;;;
    print (Println (Repeat "=" 50)) ;;;
    print (Println "🔍 Checking available files...") ;;;
    l <- getModelFiles apiURL (modelName flags) ;;
    let files := fst l in
    match snd l with
    | Some err => print (PrintListError err) ;;; ret 1%Z
    | None =>
        print (PrintFound (List.length files)) ;;;
        m <- MkdirAll E (modelDir) ;;
        match m with
        | Some err => print (PrintMkdirError err) ;;; ret 1%Z
        | None =>
            print (Println (String "010" "📥 Starting downloads...")) ;;;
            print (Println (Repeat "-" 50)) ;;;
            successCount <- download_all baseURL (modelName flags) modelDir (List.length files) 0 files 0 ;;
            print (Println (Repeat "=" 50)) ;;;
            print (PrintComplete successCount (List.length files)) ;;;
            print (PrintSaved (modelDir)) ;;;
            ret 0%Z
        end
    end.
End Program.

End Simple.

(* ===================================================================== *)
(** * A concrete world: a small model repository *)
(* ===================================================================== *)

Module Scenario.
Import Go.

(** The body of the listing answer and the listing it decodes to:
    a file at the top, a directory, and a file inside the directory. *)
Definition listing_body : list Byte.byte :=
  list_byte_of_string "tree of org/model".

Definition listing : list TreeItem :=
  [ {| item_Type := "file"; item_Path := "config.json"; item_Size := 10 |};
    {| item_Type := "directory"; item_Path := "subdir"; item_Size := 0 |};
    {| item_Type := "file"; item_Path := "subdir/missing.bin"; item_Size := 4 |};
    {| item_Type := "file"; item_Path := "subdir/vocab.txt"; item_Size := 0 |} ].

Definition config_body : list Byte.byte := list_byte_of_string "{temp: 1}".

Definition vocab_body : list Byte.byte := list_byte_of_string "a b c".

(** A second repository, [org/empty], holds directories only. *)
Definition empty_body : list Byte.byte :=
  list_byte_of_string "tree of org/empty".

Definition empty_listing : list TreeItem :=
  [ {| item_Type := "directory"; item_Path := "a"; item_Size := 0 |};
    {| item_Type := "directory"; item_Path := "b"; item_Size := 0 |} ].

Definition ok (body : list Byte.byte) : error + Response :=
  inr {| StatusCode := 200; Body := body; BodyErr := None |}.

Definition not_found : error + Response :=
  inr {| StatusCode := 404; Body := []; BodyErr := None |}.

(** The server: the trees of [org/model] and [org/empty], two of the
    three files of [org/model], 404 for everything else; the host of
    [down/model] does not answer. *)
Definition serve (history : list Request) (req : Request) : error + Response :=
  let url := URL req in
  if String.eqb url "https://huggingface.co/api/models/org/model/tree/main"
  then ok listing_body
  else if String.eqb url "https://huggingface.co/org/model/resolve/main/config.json"
  then ok config_body
  else if String.eqb url "https://huggingface.co/org/model/resolve/main/subdir/vocab.txt"
  then ok vocab_body
  else if String.eqb url "https://huggingface.co/api/models/org/empty/tree/main"
  then ok empty_body
  else if String.eqb url "https://huggingface.co/api/models/down/model/tree/main"
  then inl (errorString "dial tcp: connection refused")
  else if String.eqb url "https://huggingface.co/down/model/resolve/main/config.json"
  then inl (errorString "dial tcp: connection refused")
  else not_found.

Definition decode (body : list Byte.byte) (read_error : option error)
  : error + list TreeItem :=
  match read_error with
  | Some err => inl err
  | None =>
      if String.eqb (string_of_list_byte body) "tree of org/model"
      then inr listing
      else if String.eqb (string_of_list_byte body) "tree of org/empty"
      then inr empty_listing
      else inl (errorString "invalid character")
  end.

(** A network as above, a disk that never fails. *)
Definition env : Env := {|
  parse_error := fun _ => None;
  round_trip := serve;
  json_Decode := decode;
  mkdir_error := fun _ _ => None;
  create_error := fun _ _ => None;
  write_limit := fun _ _ _ _ => None
|}.

(** Before the program starts: an empty disk, nothing sent or printed. *)
Definition start : World :=
  {| fs := {| files := ∅; dirs := ∅ |}; sent := []; console := [] |}.

Definition full_flags : Full.Flags :=
  {| Full.modelName := "org/model"; Full.outputDir := "models"; Full.help := false |}.

Definition full_config : Full.DownloadConfig := Full.configure unix full_flags.

(** A model the server does not know. *)
Definition unknown_full_flags : Full.Flags :=
  {| Full.modelName := "nobody/nothing"; Full.outputDir := "models";
     Full.help := false |}.

Definition unknown_simple_flags : Simple.Flags :=
  {| Simple.modelName := "nobody/nothing"; Simple.outputDir := "models";
     Simple.help := false |}.

(** The entries of the listing, as [getModelFiles] makes them. *)
Definition config_entry : Full.ModelInfo :=
  {| Full.Name := "config.json"; Full.Type_ := "file"; Full.Size := 10;
     Full.Path := "config.json" |}.

Definition missing_entry : Full.ModelInfo :=
  {| Full.Name := "missing.bin"; Full.Type_ := "file"; Full.Size := 4;
     Full.Path := "subdir/missing.bin" |}.


Definition simple_config_entry : Simple.ModelInfo :=
  {| Simple.Name := "config.json"; Simple.Type_ := "file"; Simple.Size := 10;
     Simple.Path := "config.json" |}.

Definition simple_missing_entry : Simple.ModelInfo :=
  {| Simple.Name := "missing.bin"; Simple.Type_ := "file"; Simple.Size := 4;
     Simple.Path := "subdir/missing.bin" |}.


Definition simple_flags : Simple.Flags :=
  {| Simple.modelName := "org/model"; Simple.outputDir := "models";
     Simple.help := false |}.

(** A disk that refuses every directory and every file. *)
Definition readonly_env : Env := {|
  parse_error := fun _ => None;
  round_trip := serve;
  json_Decode := decode;
  mkdir_error := fun _ _ => Some (errorString "permission denied");
  create_error := fun _ _ => Some (errorString "permission denied");
  write_limit := fun _ _ _ _ => None
|}.

(** A network that cuts every body after four bytes. *)
Definition cut_body : list Byte.byte := list_byte_of_string "{tem".

Definition cut (history : list Request) (req : Request) : error + Response :=
  inr {| StatusCode := 200; Body := cut_body;
         BodyErr := Some (errorString "unexpected EOF") |}.

Definition cut_env : Env := {|
  parse_error := fun _ => None;
  round_trip := cut;
  json_Decode := decode;
  mkdir_error := fun _ _ => None;
  create_error := fun _ _ => None;
  write_limit := fun _ _ _ _ => None
|}.

(** The same flags with [-help]. *)
Definition help_full_flags : Full.Flags :=
  {| Full.modelName := "org/model"; Full.outputDir := "models"; Full.help := true |}.

Definition help_simple_flags : Simple.Flags :=
  {| Simple.modelName := "org/model"; Simple.outputDir := "models";
     Simple.help := true |}.

(** A model whose host does not answer. *)
Definition down_full_flags : Full.Flags :=
  {| Full.modelName := "down/model"; Full.outputDir := "models";
     Full.help := false |}.

Definition down_simple_flags : Simple.Flags :=
  {| Simple.modelName := "down/model"; Simple.outputDir := "models";
     Simple.help := false |}.

(** A repository with two files called [config.json], in two of its
    directories. *)
Definition encoder_body : list Byte.byte := list_byte_of_string "encoder".

Definition decoder_body : list Byte.byte := list_byte_of_string "decoder!".

Definition twins (history : list Request) (req : Request) : error + Response :=
  let url := URL req in
  if String.eqb url "https://huggingface.co/org/model/resolve/main/encoder/config.json"
  then ok encoder_body
  else if String.eqb url
            "https://huggingface.co/org/model/resolve/main/decoder/config.json"
  then ok decoder_body
  else not_found.

Definition twins_env : Env := {|
  parse_error := fun _ => None;
  round_trip := twins;
  json_Decode := decode;
  mkdir_error := fun _ _ => None;
  create_error := fun _ _ => None;
  write_limit := fun _ _ _ _ => None
|}.

Definition encoder_entry : Full.ModelInfo :=
  {| Full.Name := "config.json"; Full.Type_ := "file"; Full.Size := 7;
     Full.Path := "encoder/config.json" |}.

Definition decoder_entry : Full.ModelInfo :=
  {| Full.Name := "config.json"; Full.Type_ := "file"; Full.Size := 8;
     Full.Path := "decoder/config.json" |}.

End Scenario.

(* ===================================================================== *)
(** * Properties *)
(* ===================================================================== *)

Import Go.

(** ** The listing *)

(** The test of the loop of [getModelFiles]: [item.Type == "file"]. *)
Definition is_file (item : TreeItem) : bool := String.eqb (item_Type item) "file".

(** The entry each version builds from a listing item. *)
Definition full_entry (P : Platform) (item : TreeItem) : Full.ModelInfo :=
  {| Full.Name := Base P (item_Path item);
     Full.Type_ := item_Type item;
     Full.Size := item_Size item;
     Full.Path := item_Path item |}.

Definition simple_entry (P : Platform) (item : TreeItem) : Simple.ModelInfo :=
  {| Simple.Name := Base P (item_Path item);
     Simple.Type_ := item_Type item;
     Simple.Size := item_Size item;
     Simple.Path := item_Path item |}.

(** The listing item an entry stands for. *)
Definition full_item (f : Full.ModelInfo) : TreeItem :=
  {| item_Type := Full.Type_ f; item_Path := Full.Path f; item_Size := Full.Size f |}.

Definition simple_item (f : Simple.ModelInfo) : TreeItem :=
  {| item_Type := Simple.Type_ f; item_Path := Simple.Path f;
     item_Size := Simple.Size f |}.

(** The directory name as the specification words it: the identifier
    with every "/" replaced by "_". *)
Fixpoint slashes_to_underscores (s : string) : string :=
  match s with
  | EmptyString => EmptyString
  | String c s' =>
      String (if Ascii.eqb c "/" then "_"%char else c) (slashes_to_underscores s')
  end.

(** ** Vocabulary for Unix paths *)

(** No "/" in a name. *)
Definition slash_free (name : string) : bool :=
  forallb (fun c => negb (is_slash c)) (list_ascii_of_string name).

(** A name that stands for a file of its directory: not empty, no
    separator in it, neither "." nor "..". *)
Definition plain_name (name : string) : bool :=
  slash_free name && negb (String.eqb name "") && negb (String.eqb name ".")
  && negb (String.eqb name "..").

(** What [filepath.Join(dir, name)] puts before a plain [name]: the
    cleaned [dir] and a separator, if one is needed. *)
Definition unix_dir_prefix (dir : string) : string :=
  let clean := unix_Join [dir] in
  if String.eqb clean "" then ""
  else if String.eqb clean "." then ""
  else if String.eqb clean "/" then "/"
  else clean +:+ "/".

(** What [Clean] keeps: names without separator, none empty, none ".". *)
Definition kept (e : string) : Prop :=
  slash_free e = true /\ e <> "" /\ e <> ".".

(** Field by field equality of an entry of the full version and one of
    the simple version. *)
Definition same_entry (f : Full.ModelInfo) (g : Simple.ModelInfo) : Prop :=
  Full.Name f = Simple.Name g /\ Full.Type_ f = Simple.Type_ g /\
  Full.Size f = Simple.Size g /\ Full.Path f = Simple.Path g.

(** ** Vocabulary for the downloads *)

(** The request [downloadFile] sends for a URL: a GET with the two
    headers set. *)
Definition download_request (url : string) : Request :=
  {| Method := "GET";
     URL := url;
     Header :=
       <["Accept" := "*/*"]>
         (<["User-Agent" :=
              "Mozilla/5.0 (Windows NT 10.0; Win64; x64) AppleWebKit/537.36"]> ∅) |}.

(** The URL [downloadFile] builds. *)
Definition download_url (baseURL modelName path : string) : string :=
  baseURL +:+ "/" +:+ modelName +:+ "/resolve/main/" +:+ path.

(** A request that fails at the connection level, or is answered with a
    status other than 200. *)
Definition refused (answer : error + Response) : Prop :=
  match answer with
  | inl _ => True
  | inr resp => StatusCode resp <> StatusOK
  end.


(** The line [main] prints for the result of one download. *)
Definition report (path : string) (result : option error) : Line :=
  match result with
  | Some err => PrintFailed path err
  | None => PrintDownloaded path
  end.

(** What the specification asks of the loop of [main], as a relation:
    starting in world [w] with [i] entries done, every entry of the list
    is tried in order; [results] are the results of the calls of
    [download], each made after the progress line of its entry and
    followed by the report of this result, whatever it is. *)
Inductive attempts {A : Type} (path : A -> string)
    (download : A -> M (option error)) (n : nat)
  : nat -> list A -> World -> list (option error) -> World -> Prop :=
| attempts_done i w : attempts path download n i [] w [] w
| attempts_next i file rest w result w1 results w' :
    download file (add_line w (PrintDownloading (i + 1) n (path file)))
    = (result, w1) ->
    attempts path download n (S i) rest
      (add_line w1 (report (path file) result)) results w' ->
    attempts path download n i (file :: rest) w (result :: results) w'.

(** The number of downloads that succeeded. *)
Definition successes (results : list (option error)) : nat :=
  List.length (List.filter (fun r => match r with None => true | Some _ => false end)
                 results).

(** The progress lines of a console: index, total and path of each. *)
Fixpoint progress_lines (lines : list Line) : list (nat * nat * string) :=
  match lines with
  | [] => []
  | PrintDownloading i n path :: rest => (i, n, path) :: progress_lines rest
  | _ :: rest => progress_lines rest
  end.

(** The reports of a console: path and success of each. *)
Fixpoint report_lines (lines : list Line) : list (string * bool) :=
  match lines with
  | [] => []
  | PrintFailed path _ :: rest => (path, false) :: report_lines rest
  | PrintDownloaded path :: rest => (path, true) :: report_lines rest
  | _ :: rest => report_lines rest
  end.




Lemma full_loop_acc P items acc :
  fold_left (Full.append_file P) items acc
  = acc ++ map (full_entry P) (List.filter is_file items).
Proof.
  revert acc. induction items as [|it items IH]; intros acc; simpl.
  - now rewrite app_nil_r.
  - rewrite IH. unfold Full.append_file, is_file.
    destruct (String.eqb (item_Type it) "file"); simpl.
    + now rewrite <- app_assoc.
    + reflexivity.
Qed.

Lemma simple_loop_acc P items acc :
  fold_left (Simple.append_file P) items acc
  = acc ++ map (simple_entry P) (List.filter is_file items).
Proof.
  revert acc. induction items as [|it items IH]; intros acc; simpl.
  - now rewrite app_nil_r.
  - rewrite IH. unfold Simple.append_file, is_file.
    destruct (String.eqb (item_Type it) "file"); simpl.
    + now rewrite <- app_assoc.
    + reflexivity.
Qed.

Lemma full_loop P items :
  fold_left (Full.append_file P) items [] = map (full_entry P) (List.filter is_file items).
Proof. apply full_loop_acc. Qed.

Lemma simple_loop P items :
  fold_left (Simple.append_file P) items [] = map (simple_entry P) (List.filter is_file items).
Proof. apply simple_loop_acc. Qed.

(** What [getModelFiles] returns once the listing request was answered
    with status 200 and the body decoded. *)
Lemma full_getModelFiles_decoded P E config w resp items :
  fst (Get E (Full.APIURL config +:+ "/models/" +:+ Full.ModelName config
              +:+ "/tree/main") w) = inr resp ->
  StatusCode resp = StatusOK ->
  json_Decode E (Body resp) (BodyErr resp) = inr items ->
  fst (Full.getModelFiles P E config w)
  = (map (full_entry P) (List.filter is_file items), None).
Proof.
  intros Hget Hst Hdec. unfold Full.getModelFiles, bind.
  destruct (Get E _ w) as [r w1]. simpl in Hget. subst r.
  rewrite Hst. simpl. rewrite Hdec. unfold ret. simpl.
  now rewrite full_loop.
Qed.

Lemma simple_getModelFiles_decoded P E apiURL modelName w resp items :
  fst (Get E (apiURL +:+ "/models/" +:+ modelName +:+ "/tree/main") w) = inr resp ->
  StatusCode resp = StatusOK ->
  json_Decode E (Body resp) (BodyErr resp) = inr items ->
  fst (Simple.getModelFiles P E apiURL modelName w)
  = (map (simple_entry P) (List.filter is_file items), None).
Proof.
  intros Hget Hst Hdec. unfold Simple.getModelFiles, bind.
  destruct (Get E _ w) as [r w1]. simpl in Hget. subst r.
  rewrite Hst. simpl. rewrite Hdec. unfold ret. simpl.
  now rewrite simple_loop.
Qed.


Lemma filter_sublist (items : list TreeItem) :
  sublist (List.filter is_file items) items.
Proof.
  induction items as [|it items IH]; simpl.
  - constructor.
  - destruct (is_file it); now constructor.
Qed.

Lemma full_item_entry P items :
  map full_item (map (full_entry P) items) = items.
Proof.
  induction items as [|[t p z] items IH]; simpl; [reflexivity|].
  now rewrite IH.
Qed.

Lemma simple_item_entry P items :
  map simple_item (map (simple_entry P) items) = items.
Proof.
  induction items as [|[t p z] items IH]; simpl; [reflexivity|].
  now rewrite IH.
Qed.

(** C1: when the listing request is answered with status 200 and the body
    decodes to [items], [getModelFiles] (either version) returns as many
    entries as [items] has items of type "file", and each entry's [Name]
    is [filepath.Base] of the [Path] of the item it was made from. *)
Theorem getModelFiles_count_and_names P E config w resp items :
  fst (Get E (Full.APIURL config +:+ "/models/" +:+ Full.ModelName config
              +:+ "/tree/main") w) = inr resp ->
  StatusCode resp = StatusOK ->
  json_Decode E (Body resp) (BodyErr resp) = inr items ->
  exists files simple_files,
    fst (Full.getModelFiles P E config w) = (files, None) /\
    fst (Simple.getModelFiles P E (Full.APIURL config) (Full.ModelName config) w)
    = (simple_files, None) /\
    List.length files = List.length (List.filter is_file items) /\
    List.length simple_files = List.length (List.filter is_file items) /\
    Forall2 (fun f item => Full.Path f = item_Path item /\
                           Full.Name f = Base P (item_Path item))
            files (List.filter is_file items) /\
    Forall2 (fun f item => Simple.Path f = item_Path item /\
                           Simple.Name f = Base P (item_Path item))
            simple_files (List.filter is_file items).
Proof.
  intros Hget Hst Hdec.
  exists (map (full_entry P) (List.filter is_file items)),
         (map (simple_entry P) (List.filter is_file items)).
  split; [now apply full_getModelFiles_decoded with resp|].
  split; [now apply simple_getModelFiles_decoded with resp|].
  rewrite !length_map. repeat split.
  - induction (List.filter is_file items); constructor; auto.
  - induction (List.filter is_file items); constructor; auto.
Qed.

Lemma getModelFiles_count_and_names_witness :
  exists files simple_files,
    fst (Full.getModelFiles unix Scenario.env Scenario.full_config Scenario.start)
    = (files, None) /\
    fst (Simple.getModelFiles unix Scenario.env "https://huggingface.co/api"
           "org/model" Scenario.start) = (simple_files, None) /\
    List.length files = 3 /\
    List.length simple_files = 3 /\
    Forall2 (fun f item => Full.Path f = item_Path item /\
                           Full.Name f = Base unix (item_Path item))
            files (List.filter is_file Scenario.listing) /\
    Forall2 (fun f item => Simple.Path f = item_Path item /\
                           Simple.Name f = Base unix (item_Path item))
            simple_files (List.filter is_file Scenario.listing).
Proof.
  apply (getModelFiles_count_and_names unix Scenario.env Scenario.full_config
           Scenario.start
           {| StatusCode := 200; Body := Scenario.listing_body; BodyErr := None |}
           Scenario.listing); reflexivity.
Defined.

(** C7: when the body decodes and no item has type "file", [getModelFiles]
    returns the empty sequence and no error. *)
Theorem getModelFiles_no_files P E config w resp items :
  fst (Get E (Full.APIURL config +:+ "/models/" +:+ Full.ModelName config
              +:+ "/tree/main") w) = inr resp ->
  StatusCode resp = StatusOK ->
  json_Decode E (Body resp) (BodyErr resp) = inr items ->
  Forall (fun item => item_Type item <> "file") items ->
  fst (Full.getModelFiles P E config w) = ([], None).
Proof.
  intros Hget Hst Hdec Hnone.
  rewrite (full_getModelFiles_decoded P E config w resp items Hget Hst Hdec).
  f_equal. replace (List.filter is_file items) with (@nil TreeItem); [reflexivity|].
  clear -Hnone. induction Hnone as [|it items Hit _ IH]; simpl; [reflexivity|].
  unfold is_file at 1. destruct (String.eqb_spec (item_Type it) "file"); [contradiction|].
  exact IH.
Qed.

Lemma getModelFiles_no_files_witness :
  fst (Full.getModelFiles unix Scenario.env
         (Full.configure unix {| Full.modelName := "org/empty";
                                 Full.outputDir := "models";
                                 Full.help := false |})
         Scenario.start) = ([], None).
Proof.
  apply (getModelFiles_no_files unix Scenario.env _ Scenario.start
           {| StatusCode := 200; Body := Scenario.empty_body; BodyErr := None |}
           Scenario.empty_listing); try reflexivity.
  repeat constructor; simpl; discriminate.
Defined.

(** C8: the entries [getModelFiles] returns stand for the items of type
    "file" of the decoded listing, in the order of the listing: they are
    exactly the filtered listing, a subsequence of it. *)
Theorem getModelFiles_order P E config w resp items :
  fst (Get E (Full.APIURL config +:+ "/models/" +:+ Full.ModelName config
              +:+ "/tree/main") w) = inr resp ->
  StatusCode resp = StatusOK ->
  json_Decode E (Body resp) (BodyErr resp) = inr items ->
  exists files simple_files,
    fst (Full.getModelFiles P E config w) = (files, None) /\
    fst (Simple.getModelFiles P E (Full.APIURL config) (Full.ModelName config) w)
    = (simple_files, None) /\
    map full_item files = List.filter is_file items /\
    map simple_item simple_files = List.filter is_file items /\
    sublist (map full_item files) items /\
    sublist (map simple_item simple_files) items.
Proof.
  intros Hget Hst Hdec.
  exists (map (full_entry P) (List.filter is_file items)),
         (map (simple_entry P) (List.filter is_file items)).
  split; [now apply full_getModelFiles_decoded with resp|].
  split; [now apply simple_getModelFiles_decoded with resp|].
  rewrite full_item_entry, simple_item_entry.
  repeat split; apply filter_sublist.
Qed.

Lemma getModelFiles_order_witness :
  exists files simple_files,
    fst (Full.getModelFiles unix Scenario.env Scenario.full_config Scenario.start)
    = (files, None) /\
    fst (Simple.getModelFiles unix Scenario.env "https://huggingface.co/api"
           "org/model" Scenario.start) = (simple_files, None) /\
    map full_item files = List.filter is_file Scenario.listing /\
    map simple_item simple_files = List.filter is_file Scenario.listing /\
    sublist (map full_item files) Scenario.listing /\
    sublist (map simple_item simple_files) Scenario.listing.
Proof.
  apply (getModelFiles_order unix Scenario.env Scenario.full_config
           Scenario.start
           {| StatusCode := 200; Body := Scenario.listing_body; BodyErr := None |}
           Scenario.listing); reflexivity.
Defined.

Lemma same_entries P items :
  Forall2 same_entry (map (full_entry P) items) (map (simple_entry P) items).
Proof.
  induction items as [|it items IH]; simpl; constructor; auto.
  repeat split.
Qed.

(** C10: in every world, [getModelFiles] of the full version and
    [getModelFiles] of the simple version, called for the same API URL
    and model, return sequences of the same length whose entries agree
    in [Name], [Type], [Size] and [Path]; they also return the same
    error and leave the same world. *)
Theorem getModelFiles_versions_agree P E config w :
  let full := Full.getModelFiles P E config w in
  let simple :=
    Simple.getModelFiles P E (Full.APIURL config) (Full.ModelName config) w in
  List.length (fst (fst full)) = List.length (fst (fst simple)) /\
  Forall2 same_entry (fst (fst full)) (fst (fst simple)) /\
  snd (fst full) = snd (fst simple) /\
  snd full = snd simple.
Proof.
  unfold Full.getModelFiles, Simple.getModelFiles, bind. simpl.
  destruct (Get E _ w) as [[err|resp] w1]; simpl.
  - repeat split; constructor.
  - destruct (negb (StatusCode resp =? StatusOK)%Z); simpl.
    + repeat split; constructor.
    + destruct (json_Decode E (Body resp) (BodyErr resp)) as [err|items]; simpl.
      * repeat split; constructor.
      * rewrite full_loop, simple_loop, !length_map.
        repeat split. apply same_entries.
Qed.

(** ** The model directory *)

Lemma HasPrefix_empty (s : string) : HasPrefix s "" = true.
Proof. now destruct s. Qed.

Lemma ReplaceAll_slash (s : string) :
  ReplaceAll s "/" "_" = slashes_to_underscores s.
Proof.
  unfold ReplaceAll. induction s as [|c s IH]; simpl; [reflexivity|].
  rewrite HasPrefix_empty, andb_true_r.
  destruct (Ascii.eqb c "/"); simpl; now rewrite IH.
Qed.

(** The replaced name has the identifier's length and no "/" left. *)
Lemma slashes_to_underscores_length (s : string) :
  String.length (slashes_to_underscores s) = String.length s.
Proof. induction s as [|c s IH]; simpl; [reflexivity|]. now rewrite IH. Qed.

Lemma slashes_to_underscores_get (s : string) (i : nat) :
  String.get i (slashes_to_underscores s)
  = option_map (fun c => if Ascii.eqb c "/" then "_"%char else c) (String.get i s).
Proof.
  revert i. induction s as [|c s IH]; intros i; simpl; [reflexivity|].
  destruct i; simpl; [reflexivity|]. apply IH.
Qed.

Lemma slashes_to_underscores_no_slash (s : string) (i : nat) :
  String.get i (slashes_to_underscores s) <> Some "/"%char.
Proof.
  rewrite slashes_to_underscores_get.
  destruct (String.get i s) as [c|]; simpl; [|discriminate].
  destruct (Ascii.eqb_spec c "/"); [discriminate|congruence].
Qed.

(** C4: the model directory either version computes is the output root
    joined with the model identifier in which every "/" is replaced by
    "_". *)
Theorem model_dir_replaces_slashes P (flags : Full.Flags) (simple_flags : Simple.Flags) :
  Full.ModelDir (Full.configure P flags)
  = Join P [Full.outputDir flags; slashes_to_underscores (Full.modelName flags)] /\
  Simple.modelDir P simple_flags
  = Join P [Simple.outputDir simple_flags;
            slashes_to_underscores (Simple.modelName simple_flags)].
Proof.
  split; rewrite <- ReplaceAll_slash; reflexivity.
Qed.

(** The example of the specification. *)
Example model_dir_Qwen :
  slashes_to_underscores "Qwen/Qwen2.5-Coder-0.5B" = "Qwen_Qwen2.5-Coder-0.5B" /\
  Full.ModelDir (Full.configure unix
    {| Full.modelName := "Qwen/Qwen2.5-Coder-0.5B"; Full.outputDir := "hf/models";
       Full.help := false |}) = "hf/models/Qwen_Qwen2.5-Coder-0.5B".
Proof. split; reflexivity. Qed.

(** ** Running the monad *)

Lemma bind_print {B} (l : Line) (k : unit -> M B) (w : World) :
  bind (print l) k w = k tt (add_line w l).
Proof. reflexivity. Qed.

Lemma bind_run {A B} (m : M A) (k : A -> M B) (w : World) :
  bind m k w = k (fst (m w)) (snd (m w)).
Proof. unfold bind. now destruct (m w). Qed.

(** The answer to a request depends on the requests sent before, not on
    the disk or the console; a request leaves the disk alone. *)
Lemma Get_sent E url w w' :
  sent w = sent w' -> fst (Get E url w) = fst (Get E url w').
Proof.
  intros H. unfold Get. destruct (NewRequest E "GET" url); [reflexivity|].
  unfold Client_Do. simpl. now rewrite H.
Qed.

Lemma Get_fs E url w : fs (snd (Get E url w)) = fs w.
Proof. unfold Get. now destruct (NewRequest E "GET" url). Qed.

Lemma Get_console E url w : console (snd (Get E url w)) = console w.
Proof. unfold Get. now destruct (NewRequest E "GET" url). Qed.

Ltac listing_cases :=
  match goal with
  | |- context [fst (Get ?E ?url ?w)] =>
      destruct (fst (Get E url w)) as [?err|?resp]; [reflexivity|];
      destruct (negb _); [reflexivity|];
      destruct (json_Decode _ _ _); reflexivity
  end.

Lemma full_getModelFiles_sent P E config w w' :
  sent w = sent w' ->
  fst (Full.getModelFiles P E config w) = fst (Full.getModelFiles P E config w').
Proof.
  intros H. unfold Full.getModelFiles. rewrite !bind_run.
  rewrite (Get_sent E _ w w' H). listing_cases.
Qed.

Lemma simple_getModelFiles_sent P E apiURL modelName w w' :
  sent w = sent w' ->
  fst (Simple.getModelFiles P E apiURL modelName w)
  = fst (Simple.getModelFiles P E apiURL modelName w').
Proof.
  intros H. unfold Simple.getModelFiles. rewrite !bind_run.
  rewrite (Get_sent E _ w w' H). listing_cases.
Qed.

Lemma full_getModelFiles_fs P E config w :
  fs (snd (Full.getModelFiles P E config w)) = fs w.
Proof.
  unfold Full.getModelFiles. rewrite bind_run.
  rewrite <- (Get_fs E (Full.APIURL config +:+ "/models/" +:+ Full.ModelName config
                        +:+ "/tree/main") w).
  listing_cases.
Qed.

Lemma simple_getModelFiles_fs P E apiURL modelName w :
  fs (snd (Simple.getModelFiles P E apiURL modelName w)) = fs w.
Proof.
  unfold Simple.getModelFiles. rewrite bind_run.
  rewrite <- (Get_fs E (apiURL +:+ "/models/" +:+ modelName +:+ "/tree/main") w).
  listing_cases.
Qed.

Lemma full_getModelFiles_console P E config w :
  console (snd (Full.getModelFiles P E config w)) = console w.
Proof.
  unfold Full.getModelFiles. rewrite bind_run.
  rewrite <- (Get_console E (Full.APIURL config +:+ "/models/" +:+ Full.ModelName config
                        +:+ "/tree/main") w).
  listing_cases.
Qed.

Lemma simple_getModelFiles_console P E apiURL modelName w :
  console (snd (Simple.getModelFiles P E apiURL modelName w)) = console w.
Proof.
  unfold Simple.getModelFiles. rewrite bind_run.
  rewrite <- (Get_console E (apiURL +:+ "/models/" +:+ modelName +:+ "/tree/main") w).
  listing_cases.
Qed.

Lemma Get_sent_after E url w w' :
  sent w = sent w' -> sent (snd (Get E url w)) = sent (snd (Get E url w')).
Proof.
  intros H. unfold Get. destruct (NewRequest E "GET" url); [exact H|].
  unfold Client_Do. simpl. now rewrite H.
Qed.

Lemma full_getModelFiles_sent_after P E config w w' :
  sent w = sent w' ->
  sent (snd (Full.getModelFiles P E config w))
  = sent (snd (Full.getModelFiles P E config w')).
Proof.
  intros H. unfold Full.getModelFiles. rewrite !bind_run.
  rewrite (Get_sent E _ w w' H).
  pose proof (Get_sent_after E (Full.APIURL config +:+ "/models/"
                +:+ Full.ModelName config +:+ "/tree/main") w w' H) as Hs.
  destruct (fst (Get E _ w')) as [err|resp]; [exact Hs|].
  destruct (negb _); [exact Hs|].
  destruct (json_Decode _ _ _); exact Hs.
Qed.

Lemma simple_getModelFiles_sent_after P E apiURL modelName w w' :
  sent w = sent w' ->
  sent (snd (Simple.getModelFiles P E apiURL modelName w))
  = sent (snd (Simple.getModelFiles P E apiURL modelName w')).
Proof.
  intros H. unfold Simple.getModelFiles. rewrite !bind_run.
  rewrite (Get_sent E _ w w' H).
  pose proof (Get_sent_after E (apiURL +:+ "/models/" +:+ modelName
                +:+ "/tree/main") w w' H) as Hs.
  destruct (fst (Get E _ w')) as [err|resp]; [exact Hs|].
  destruct (negb _); [exact Hs|].
  destruct (json_Decode _ _ _); exact Hs.
Qed.

(** ** A listing that is refused *)

Lemma full_getModelFiles_status P E config w resp :
  fst (Get E (Full.APIURL config +:+ "/models/" +:+ Full.ModelName config
              +:+ "/tree/main") w) = inr resp ->
  StatusCode resp <> StatusOK ->
  fst (Full.getModelFiles P E config w)
  = ([], Some (statusError "API returned status: " (StatusCode resp))).
Proof.
  intros Hget Hst. unfold Full.getModelFiles. rewrite bind_run, Hget.
  destruct (Z.eqb_spec (StatusCode resp) StatusOK); [contradiction|]. reflexivity.
Qed.

Lemma simple_getModelFiles_status P E apiURL modelName w resp :
  fst (Get E (apiURL +:+ "/models/" +:+ modelName +:+ "/tree/main") w) = inr resp ->
  StatusCode resp <> StatusOK ->
  fst (Simple.getModelFiles P E apiURL modelName w)
  = ([], Some (statusError "API returned status: " (StatusCode resp))).
Proof.
  intros Hget Hst. unfold Simple.getModelFiles. rewrite bind_run, Hget.
  destruct (Z.eqb_spec (StatusCode resp) StatusOK); [contradiction|]. reflexivity.
Qed.

(** When the listing fails, [main] prints the error and exits with 1,
    the disk as it was. *)
Lemma full_main_listing_error P E flags w err :
  Full.help flags = false ->
  fst (Full.getModelFiles P E (Full.configure P flags) w) = ([], Some err) ->
  fst (Full.main P E flags w) = 1%Z /\
  fs (snd (Full.main P E flags w)) = fs w /\
  last (console (snd (Full.main P E flags w))) = Some (PrintListError err).
Proof.
  intros Hhelp Hlist.
  unfold Full.main. rewrite Hhelp. cbv iota. rewrite !bind_print, bind_run.
  match goal with |- context [Full.getModelFiles P E ?c ?w'] =>
    rewrite (full_getModelFiles_sent P E c w' w eq_refl), Hlist end.
  cbn [fst snd]. rewrite bind_print. unfold ret. cbn [fst snd].
  split; [reflexivity|]. split.
  - unfold add_line at 1. cbn [fs]. now rewrite full_getModelFiles_fs.
  - unfold add_line at 1. cbn [console]. apply last_snoc.
Qed.

Lemma simple_main_listing_error P E flags w err :
  Simple.help flags = false ->
  fst (Simple.getModelFiles P E "https://huggingface.co/api"
         (Simple.modelName flags) w) = ([], Some err) ->
  fst (Simple.main P E flags w) = 1%Z /\
  fs (snd (Simple.main P E flags w)) = fs w /\
  last (console (snd (Simple.main P E flags w))) = Some (PrintListError err).
Proof.
  intros Hhelp Hlist.
  unfold Simple.main. rewrite Hhelp. cbv iota zeta. rewrite !bind_print, bind_run.
  match goal with |- context [Simple.getModelFiles P E ?a ?m ?w'] =>
    rewrite (simple_getModelFiles_sent P E a m w' w eq_refl), Hlist end.
  cbn [fst snd]. rewrite bind_print. unfold ret. cbn [fst snd].
  split; [reflexivity|]. split.
  - unfold add_line at 1. cbn [fs]. now rewrite simple_getModelFiles_fs.
  - unfold add_line at 1. cbn [console]. apply last_snoc.
Qed.

(** C3: when the listing request is answered with a status other than
    200, [getModelFiles] returns the error made from that status code,
    and [main] exits with code 1 (having printed the error and left the
    disk untouched); in both versions. *)
Theorem listing_status_is_fatal P E (flags : Full.Flags) (simple_flags : Simple.Flags)
    w resp :
  Full.help flags = false ->
  Simple.help simple_flags = false ->
  Simple.modelName simple_flags = Full.modelName flags ->
  fst (Get E ("https://huggingface.co/api/models/" +:+ Full.modelName flags
              +:+ "/tree/main") w) = inr resp ->
  StatusCode resp <> StatusOK ->
  let err := statusError "API returned status: " (StatusCode resp) in
  error_codes err = [StatusCode resp] /\
  fst (Full.getModelFiles P E (Full.configure P flags) w) = ([], Some err) /\
  fst (Simple.getModelFiles P E "https://huggingface.co/api"
         (Simple.modelName simple_flags) w) = ([], Some err) /\
  fst (Full.main P E flags w) = 1%Z /\
  fst (Simple.main P E simple_flags w) = 1%Z /\
  fs (snd (Full.main P E flags w)) = fs w /\
  fs (snd (Simple.main P E simple_flags w)) = fs w.
Proof.
  intros Hhelp Hhelp' Hname Hget Hst err.
  assert (Hfull : fst (Full.getModelFiles P E (Full.configure P flags) w)
                  = ([], Some err))
    by (now apply full_getModelFiles_status).
  assert (Hsimple : fst (Simple.getModelFiles P E "https://huggingface.co/api"
                           (Simple.modelName simple_flags) w) = ([], Some err))
    by (rewrite Hname; now apply simple_getModelFiles_status).
  destruct (full_main_listing_error P E flags w err Hhelp Hfull) as (? & ? & _).
  destruct (simple_main_listing_error P E simple_flags w err Hhelp' Hsimple)
    as (? & ? & _).
  repeat split; assumption.
Qed.

Lemma listing_status_is_fatal_witness :
  let err := statusError "API returned status: " 404 in
  error_codes err = [404%Z] /\
  fst (Full.getModelFiles unix Scenario.env
         (Full.configure unix Scenario.unknown_full_flags) Scenario.start)
  = ([], Some err) /\
  fst (Simple.getModelFiles unix Scenario.env "https://huggingface.co/api"
         "nobody/nothing" Scenario.start) = ([], Some err) /\
  fst (Full.main unix Scenario.env Scenario.unknown_full_flags Scenario.start) = 1%Z /\
  fst (Simple.main unix Scenario.env Scenario.unknown_simple_flags Scenario.start)
  = 1%Z /\
  fs (snd (Full.main unix Scenario.env Scenario.unknown_full_flags Scenario.start))
  = fs Scenario.start /\
  fs (snd (Simple.main unix Scenario.env Scenario.unknown_simple_flags Scenario.start))
  = fs Scenario.start.
Proof.
  apply (listing_status_is_fatal unix Scenario.env Scenario.unknown_full_flags
           Scenario.unknown_simple_flags Scenario.start
           {| StatusCode := 404; Body := []; BodyErr := None |});
    try reflexivity.
  simpl. discriminate.
Defined.

(** ** One download *)

Lemma NewRequest_download E url :
  parse_error E url = None ->
  NewRequest E "GET" url = inr {| Method := "GET"; URL := url; Header := ∅ |}.
Proof. intros H. unfold NewRequest. now rewrite H. Qed.

Lemma NewRequest_error E url err :
  parse_error E url = Some err -> NewRequest E "GET" url = inl err.
Proof. intros H. unfold NewRequest. now rewrite H. Qed.

Lemma Client_Do_run E req w :
  Client_Do E req w
  = (round_trip E (sent w) req,
     {| fs := fs w; sent := sent w ++ [req]; console := console w |}).
Proof. reflexivity. Qed.

Lemma Create_run E path w :
  (exists err, create_error E (fs w) path = Some err /\
               Create E path w = (Some err, w)) \/
  (create_error E (fs w) path = None /\
   Create E path w
   = (None, {| fs := {| files := <[path := []]> (files (fs w)); dirs := dirs (fs w) |};
               sent := sent w; console := console w |})).
Proof.
  unfold Create. destruct (create_error E (fs w) path) as [err|]; eauto.
Qed.

(** [io.Copy] puts [data] in the file and returns its length; when it
    returns no error, [data] is the whole body and the body ended in EOF. *)
Lemma Copy_run E path bar resp w :
  exists data,
    snd (Copy E path bar resp w)
    = {| fs := {| files := <[path := data]> (files (fs w)); dirs := dirs (fs w) |};
         sent := sent w; console := console w |} /\
    fst (fst (Copy E path bar resp w)) = Z.of_nat (List.length data) /\
    (snd (fst (Copy E path bar resp w)) = None ->
     data = Body resp /\ BodyErr resp = None).
Proof.
  unfold Copy.
  destruct (write_limit E (fs w) path bar (Body resp)) as [[n e]|].
  - destruct (n <? List.length (Body resp))%nat.
    + eexists. split; [reflexivity|]. split; [reflexivity|]. discriminate.
    + eexists. split; [reflexivity|]. split; [reflexivity|]. cbn. auto.
  - eexists. split; [reflexivity|]. split; [reflexivity|]. cbn. auto.
Qed.

(** [io.Copy] right after [os.Create] on the same path. *)
Lemma Copy_after_Create E out bar resp (w : World) l :
  let w2 := {| fs := {| files := <[out := []]> (files (fs w)); dirs := dirs (fs w) |};
               sent := sent w ++ l; console := console w |} in
  exists data,
    snd (Copy E out bar resp w2)
    = {| fs := {| files := <[out := data]> (files (fs w)); dirs := dirs (fs w) |};
         sent := sent w ++ l; console := console w |} /\
    fst (fst (Copy E out bar resp w2)) = Z.of_nat (List.length data) /\
    (snd (fst (Copy E out bar resp w2)) = None ->
     data = Body resp /\ BodyErr resp = None).
Proof.
  intros w2. destruct (Copy_run E out bar resp w2) as (data & Hs & Hn & Hok).
  exists data. split; [|split; assumption]. rewrite Hs. subst w2.
  cbn [fs files dirs console sent]. now rewrite insert_insert_eq.
Qed.

(** Every way [downloadFile] of the full version can end: with an error
    before the file is created, or after [io.Copy] put [data] in it. *)
Lemma full_downloadFile_run P E config file w :
  let url :=
    download_url (Full.BaseURL config) (Full.ModelName config) (Full.Path file) in
  let out := Join P [Full.ModelDir config; Full.Name file] in
  let r := Full.downloadFile P E config file w in
  console (snd r) = console w /\
  dirs (fs (snd r)) = dirs (fs w) /\
  ((exists err, fst r = Some err /\ files (fs (snd r)) = files (fs w) /\
                (parse_error E url <> None \/
                 refused (round_trip E (sent w) (download_request url)) \/
                 create_error E (fs w) out <> None)) \/
   (exists resp data,
      round_trip E (sent w) (download_request url) = inr resp /\
      StatusCode resp = StatusOK /\
      files (fs (snd r)) = <[out := data]> (files (fs w)) /\
      ((exists err, fst r = Some err) \/
       (fst r = None /\ data = Body resp /\ BodyErr resp = None)))).
Proof.
  intros url out r. subst r. unfold Full.downloadFile.
  fold (download_url (Full.BaseURL config) (Full.ModelName config) (Full.Path file)).
  fold url. fold out.
  destruct (parse_error E url) as [err|] eqn:Hparse.
  { rewrite (NewRequest_error E url err Hparse).
    split; [reflexivity|]. split; [reflexivity|]. left.
    exists (wrapError "failed to create request: " err).
    repeat split. left. discriminate. }
  rewrite (NewRequest_download E url Hparse).
  change (Header_Set (Header_Set _ _ _) _ _) with (download_request url).
  rewrite bind_run, Client_Do_run. cbn [fst snd].
  destruct (round_trip E (sent w) (download_request url)) as [err|resp] eqn:Hrt.
  { split; [reflexivity|]. split; [reflexivity|]. left. eexists.
    repeat split. right. left. exact I. }
  destruct (Z.eqb_spec (StatusCode resp) StatusOK) as [Hst|Hst]; cbn [negb].
  2:{ split; [reflexivity|]. split; [reflexivity|]. left. eexists.
      repeat split. right. left. exact Hst. }
  rewrite bind_run.
  set (w1 := {| fs := fs w; sent := sent w ++ [download_request url];
                console := console w |}).
  destruct (Create_run E out w1) as [(err & Hce & Hc)|(Hce & Hc)];
    rewrite Hc; cbn [fst snd].
  { split; [reflexivity|]. split; [reflexivity|]. left. eexists.
    repeat split. right. right. cbn [fs w1] in Hce. congruence. }
  rewrite bind_run. cbv zeta.
  assert (exists bar,
    (match (if (Full.Size file >? 0)%Z then Some (Full.Size file) else None) with
     | Some max => Copy E out (Some max) resp
     | None => Copy E out None resp
     end) = Copy E out bar resp) as [bar ->].
  { destruct (Full.Size file >? 0)%Z; eauto. }
  subst w1. cbn [fs sent console].
  destruct (Copy_after_Create E out bar resp w [download_request url])
    as (data & Hs & _ & Hok).
  cbv zeta in Hs, Hok. rewrite Hs.
  destruct (snd (fst (Copy E out bar resp _))) as [err|];
    unfold ret; cbn [fst snd console dirs fs files];
    (split; [reflexivity|]); (split; [reflexivity|]); right; exists resp, data;
    (split; [reflexivity|]); (split; [assumption|]); (split; [reflexivity|]).
  - left. eauto.
  - right. split; [reflexivity|]. now apply Hok.
Qed.

(** The same for the simple version, which also prints: a line before
    the copy, and a line with the count of bytes copied after it. *)
Lemma simple_downloadFile_run P E baseURL modelName modelDir file w :
  let url := download_url baseURL modelName (Simple.Path file) in
  let out := Join P [modelDir; Simple.Name file] in
  let r := Simple.downloadFile P E baseURL modelName modelDir file w in
  let start := PrintFileStart (Simple.Name file) (Simple.Size file) in
  dirs (fs (snd r)) = dirs (fs w) /\
  ((exists err, fst r = Some err /\ files (fs (snd r)) = files (fs w) /\
                console (snd r) = console w /\
                (parse_error E url <> None \/
                 refused (round_trip E (sent w) (download_request url)) \/
                 create_error E (fs w) out <> None)) \/
   (exists resp data,
      round_trip E (sent w) (download_request url) = inr resp /\
      StatusCode resp = StatusOK /\
      files (fs (snd r)) = <[out := data]> (files (fs w)) /\
      ((exists err, fst r = Some err /\ console (snd r) = console w ++ [start]) \/
       (fst r = None /\ data = Body resp /\ BodyErr resp = None /\
        console (snd r)
        = console w ++ [start; PrintFileDone (Simple.Name file)
                                 (Z.of_nat (List.length data))])))).
Proof.
  intros url out r start. subst r. unfold Simple.downloadFile.
  fold (download_url baseURL modelName (Simple.Path file)).
  fold url. fold out. fold start.
  destruct (parse_error E url) as [err|] eqn:Hparse.
  { rewrite (NewRequest_error E url err Hparse).
    split; [reflexivity|]. left.
    exists (wrapError "failed to create request: " err).
    repeat split. left. discriminate. }
  rewrite (NewRequest_download E url Hparse).
  change (Header_Set (Header_Set _ _ _) _ _) with (download_request url).
  rewrite bind_run, Client_Do_run. cbn [fst snd].
  destruct (round_trip E (sent w) (download_request url)) as [err|resp] eqn:Hrt.
  { split; [reflexivity|]. left. eexists.
    repeat split. right. left. exact I. }
  destruct (Z.eqb_spec (StatusCode resp) StatusOK) as [Hst|Hst]; cbn [negb].
  2:{ split; [reflexivity|]. left. eexists.
      repeat split. right. left. exact Hst. }
  rewrite bind_run.
  set (w1 := {| fs := fs w; sent := sent w ++ [download_request url];
                console := console w |}).
  destruct (Create_run E out w1) as [(err & Hce & Hc)|(Hce & Hc)];
    rewrite Hc; cbn [fst snd].
  { split; [reflexivity|]. left. eexists.
    repeat split. right. right. cbn [fs w1] in Hce. congruence. }
  rewrite bind_print, bind_run. cbv zeta.
  subst w1. unfold add_line. cbn [fs sent console].
  set (w0 := {| fs := fs w; sent := sent w; console := console w ++ [start] |}).
  destruct (Copy_after_Create E out None resp w0 [download_request url])
    as (data & Hs & Hn & Hok).
  cbv zeta in Hs, Hn, Hok. subst w0. cbn [fs sent console] in Hs, Hn, Hok.
  rewrite Hs, Hn.
  destruct (snd (fst (Copy E out None resp _))) as [err|].
  - unfold ret; cbn [fst snd console dirs fs files].
    split; [reflexivity|]. right. exists resp, data.
    split; [reflexivity|]. split; [assumption|]. split; [reflexivity|].
    left. eauto.
  - rewrite bind_print. unfold ret, add_line; cbn [fst snd console dirs fs files].
    split; [reflexivity|]. right. exists resp, data.
    split; [reflexivity|]. split; [assumption|]. split; [reflexivity|].
    right. destruct (Hok eq_refl) as [-> ->].
    repeat split. now rewrite <- app_assoc.
Qed.

Lemma FS_eq (a b : FS) : files a = files b -> dirs a = dirs b -> a = b.
Proof. destruct a, b; simpl; intros; subst; reflexivity. Qed.

(** C9: when the download request fails at the connection level or is
    answered with a status other than 200, [downloadFile] (either
    version) returns an error and the disk is as it was: the output file
    is neither created nor truncated. *)
Theorem refused_download_leaves_disk P E config file simple_file w :
  Simple.Path simple_file = Full.Path file ->
  refused (round_trip E (sent w)
             (download_request
                (download_url (Full.BaseURL config) (Full.ModelName config)
                   (Full.Path file)))) ->
  (exists err,
     fst (Full.downloadFile P E config file w) = Some err /\
     fs (snd (Full.downloadFile P E config file w)) = fs w) /\
  (exists err,
     fst (Simple.downloadFile P E (Full.BaseURL config) (Full.ModelName config)
            (Full.ModelDir config) simple_file w) = Some err /\
     fs (snd (Simple.downloadFile P E (Full.BaseURL config) (Full.ModelName config)
                (Full.ModelDir config) simple_file w)) = fs w).
Proof.
  intros Hpath Href. split.
  - destruct (full_downloadFile_run P E config file w)
      as (_ & Hdirs & [(err & Herr & Hfiles & _)|(resp & data & Hrt & Hst & _)]).
    + exists err. split; [assumption|]. now apply FS_eq.
    + rewrite Hrt in Href. contradiction.
  - destruct (simple_downloadFile_run P E (Full.BaseURL config)
                (Full.ModelName config) (Full.ModelDir config) simple_file w)
      as (Hdirs & [(err & Herr & Hfiles & _)|(resp & data & Hrt & Hst & _)]).
    + exists err. split; [assumption|]. now apply FS_eq.
    + rewrite Hpath in Hrt. rewrite Hrt in Href. contradiction.
Qed.

Lemma refused_download_leaves_disk_witness :
  (exists err,
     fst (Full.downloadFile unix Scenario.env Scenario.full_config
            Scenario.missing_entry Scenario.start) = Some err /\
     fs (snd (Full.downloadFile unix Scenario.env Scenario.full_config
                Scenario.missing_entry Scenario.start)) = fs Scenario.start) /\
  (exists err,
     fst (Simple.downloadFile unix Scenario.env "https://huggingface.co" "org/model"
            "models/org_model" Scenario.simple_missing_entry Scenario.start)
     = Some err /\
     fs (snd (Simple.downloadFile unix Scenario.env "https://huggingface.co"
                "org/model" "models/org_model" Scenario.simple_missing_entry
                Scenario.start)) = fs Scenario.start).
Proof.
  apply (refused_download_leaves_disk unix Scenario.env Scenario.full_config
           Scenario.missing_entry Scenario.simple_missing_entry Scenario.start).
  - reflexivity.
  - vm_compute. discriminate.
Defined.


(** Two files of the same name in different directories of the
    repository are written to one and the same local path. *)
Example same_name_same_output (dir : string) :
  let a := {| item_Type := "file"; item_Path := "encoder/config.json"; item_Size := 1 |} in
  let b := {| item_Type := "file"; item_Path := "decoder/config.json"; item_Size := 2 |} in
  Join unix [dir; Full.Name (full_entry unix a)]
  = Join unix [dir; Full.Name (full_entry unix b)].
Proof. reflexivity. Qed.

(** ** The result of a download *)



(** ** The loop of [main] *)



Section Loop.
Context {A : Type} (path : A -> string) (download : A -> M (option error)).

(** A download prints no progress line and no report of its own. *)
Hypothesis download_quiet : forall file w,
  exists extra,
    console (snd (download file w)) = console w ++ extra /\
    progress_lines extra = [] /\ report_lines extra = [].

Lemma attempts_length n i files w results w' :
  attempts path download n i files w results w' ->
  List.length results = List.length files.
Proof. induction 1; simpl; congruence. Qed.


End Loop.



(** The loop is a run of [attempts]; it returns the count it was given
    plus the number of successes. *)
Lemma full_download_all_attempts P E config n files : forall i k w,
  exists results,
    attempts Full.Path (Full.downloadFile P E config) n i files w results
      (snd (Full.download_all P E config n i files k w)) /\
    fst (Full.download_all P E config n i files k w) = (k + successes results)%nat.
Proof.
  induction files as [|file rest IH]; intros i k w.
  - exists []. split; [constructor|]. cbn. unfold successes. simpl. lia.
  - cbn [Full.download_all]. rewrite bind_print, bind_run.
    destruct (Full.downloadFile P E config file _) as [result w1] eqn:Hdl.
    cbn [fst snd]. destruct result as [err|]; rewrite bind_print.
    + destruct (IH (S i) k (add_line w1 (PrintFailed (Full.Path file) err)))
        as (results & Hrun & Hk).
      exists (Some err :: results). split; [|exact Hk].
      econstructor; [exact Hdl|exact Hrun].
    + destruct (IH (S i) (S k) (add_line w1 (PrintDownloaded (Full.Path file))))
        as (results & Hrun & Hk).
      exists (None :: results). split.
      * econstructor; [exact Hdl|exact Hrun].
      * rewrite Hk. unfold successes. simpl. lia.
Qed.

Lemma simple_download_all_attempts P E baseURL modelName modelDir n files :
  forall i k w,
  exists results,
    attempts Simple.Path (Simple.downloadFile P E baseURL modelName modelDir)
      n i files w results
      (snd (Simple.download_all P E baseURL modelName modelDir n i files k w)) /\
    fst (Simple.download_all P E baseURL modelName modelDir n i files k w)
    = (k + successes results)%nat.
Proof.
  induction files as [|file rest IH]; intros i k w.
  - exists []. split; [constructor|]. cbn. unfold successes. simpl. lia.
  - cbn [Simple.download_all]. rewrite bind_print, bind_run.
    destruct (Simple.downloadFile P E baseURL modelName modelDir file _)
      as [result w1] eqn:Hdl.
    cbn [fst snd]. destruct result as [err|]; rewrite bind_print.
    + destruct (IH (S i) k (add_line w1 (PrintFailed (Simple.Path file) err)))
        as (results & Hrun & Hk).
      exists (Some err :: results). split; [|exact Hk].
      econstructor; [exact Hdl|exact Hrun].
    + destruct (IH (S i) (S k) (add_line w1 (PrintDownloaded (Simple.Path file))))
        as (results & Hrun & Hk).
      exists (None :: results). split.
      * econstructor; [exact Hdl|exact Hrun].
      * rewrite Hk. unfold successes. simpl. lia.
Qed.

Lemma MkdirAll_ok E path w :
  mkdir_error E (fs w) path = None ->
  MkdirAll E path w
  = (None, {| fs := {| files := files (fs w); dirs := {[path]} ∪ dirs (fs w) |};
              sent := sent w; console := console w |}).
Proof. intros H. unfold MkdirAll. now rewrite H. Qed.

(** The run of [main] once the listing and the directory are there. *)
Lemma full_main_run P E flags w files :
  Full.help flags = false ->
  fst (Full.getModelFiles P E (Full.configure P flags) w) = (files, None) ->
  mkdir_error E (fs w) (Full.ModelDir (Full.configure P flags)) = None ->
  exists w1 w2 results before,
    fs w1 = {| files := Go.files (fs w);
               dirs := {[Full.ModelDir (Full.configure P flags)]} ∪ dirs (fs w) |} /\
    sent w1 = sent (snd (Full.getModelFiles P E (Full.configure P flags) w)) /\
    attempts Full.Path (Full.downloadFile P E (Full.configure P flags))
      (List.length files) 0 files w1 results w2 /\
    console w1 = console w ++ before /\
    progress_lines before = [] /\ report_lines before = [] /\
    Full.main P E flags w
    = (0%Z,
       add_line
         (add_line (add_line w2 (Println (Repeat "=" 50)))
            (PrintComplete (successes results) (List.length files)))
         (PrintSaved (Full.ModelDir (Full.configure P flags)))).
Proof.
  intros Hhelp Hlist Hmk.
  unfold Full.main. rewrite Hhelp. cbv iota. rewrite !bind_print, bind_run.
  match goal with |- context [Full.getModelFiles P E ?c ?w'] =>
    rewrite (full_getModelFiles_sent P E c w' w eq_refl), Hlist;
    pose proof (full_getModelFiles_fs P E c w') as Hfs;
    pose proof (full_getModelFiles_console P E c w') as Hcons;
    pose proof (full_getModelFiles_sent_after P E c w' w eq_refl) as Hsent;
    set (wl := snd (Full.getModelFiles P E c w')) in *
  end.
  cbn [fst snd]. rewrite bind_print, bind_run.
  rewrite MkdirAll_ok
    by (cbn [add_line fs]; rewrite Hfs; cbn [add_line fs]; exact Hmk).
  cbn [fst snd]. rewrite !bind_print, bind_run.
  match goal with |- context [Full.download_all P E ?c ?n 0 files 0 ?w1] =>
    destruct (full_download_all_attempts P E c n files 0 0 w1) as (results & Hrun & Hk);
    exists w1, (snd (Full.download_all P E c n 0 files 0 w1)), results
  end.
  eexists.
  split; [cbn [add_line fs]; now rewrite Hfs|].
  split; [exact Hsent|].
  split; [exact Hrun|].
  split; [|split; [|split]]; cycle 3.
  - rewrite Hk. rewrite !bind_print. reflexivity.
  - cbn [add_line console]. rewrite Hcons. cbn [add_line console].
    rewrite <- !app_assoc. reflexivity.
  - reflexivity.
  - reflexivity.
Qed.

Lemma simple_main_run P E flags w files :
  Simple.help flags = false ->
  fst (Simple.getModelFiles P E "https://huggingface.co/api"
         (Simple.modelName flags) w) = (files, None) ->
  mkdir_error E (fs w) (Simple.modelDir P flags) = None ->
  exists w1 w2 results before,
    fs w1 = {| files := Go.files (fs w);
               dirs := {[Simple.modelDir P flags]} ∪ dirs (fs w) |} /\
    sent w1 = sent (snd (Simple.getModelFiles P E "https://huggingface.co/api"
                           (Simple.modelName flags) w)) /\
    attempts Simple.Path
      (Simple.downloadFile P E "https://huggingface.co" (Simple.modelName flags)
         (Simple.modelDir P flags))
      (List.length files) 0 files w1 results w2 /\
    console w1 = console w ++ before /\
    progress_lines before = [] /\ report_lines before = [] /\
    Simple.main P E flags w
    = (0%Z,
       add_line
         (add_line (add_line w2 (Println (Repeat "=" 50)))
            (PrintComplete (successes results) (List.length files)))
         (PrintSaved (Simple.modelDir P flags))).
Proof.
  intros Hhelp Hlist Hmk.
  unfold Simple.main. rewrite Hhelp. cbv iota zeta. rewrite !bind_print, bind_run.
  match goal with |- context [Simple.getModelFiles P E ?a ?m ?w'] =>
    rewrite (simple_getModelFiles_sent P E a m w' w eq_refl), Hlist;
    pose proof (simple_getModelFiles_fs P E a m w') as Hfs;
    pose proof (simple_getModelFiles_console P E a m w') as Hcons;
    pose proof (simple_getModelFiles_sent_after P E a m w' w eq_refl) as Hsent;
    set (wl := snd (Simple.getModelFiles P E a m w')) in *
  end.
  cbn [fst snd]. rewrite bind_print, bind_run.
  rewrite MkdirAll_ok
    by (cbn [add_line fs]; rewrite Hfs; cbn [add_line fs]; exact Hmk).
  cbn [fst snd]. rewrite !bind_print, bind_run.
  match goal with |- context [Simple.download_all P E ?b ?m ?d ?n 0 files 0 ?w1] =>
    destruct (simple_download_all_attempts P E b m d n files 0 0 w1)
      as (results & Hrun & Hk);
    exists w1, (snd (Simple.download_all P E b m d n 0 files 0 w1)), results
  end.
  eexists.
  split; [cbn [add_line fs]; now rewrite Hfs|].
  split; [exact Hsent|].
  split; [exact Hrun|].
  split; [|split; [|split]]; cycle 3.
  - rewrite Hk. rewrite !bind_print. reflexivity.
  - cbn [add_line console]. rewrite Hcons. cbn [add_line console].
    rewrite <- !app_assoc. reflexivity.
  - reflexivity.
  - reflexivity.
Qed.



(** The run of the full version in the concrete world: the second of
    three downloads is answered with 404; the third is still made, the
    summary is 2 of 3 and the exit code 0. *)
Example scenario_run :
  let r := Full.main unix Scenario.env Scenario.full_flags Scenario.start in
  fst r = 0%Z /\
  drop 9 (console (snd r))
  = [ PrintDownloading 1 3 "config.json";
      PrintDownloaded "config.json";
      PrintDownloading 2 3 "subdir/missing.bin";
      PrintFailed "subdir/missing.bin"
        (statusError "download failed with status: " 404);
      PrintDownloading 3 3 "subdir/vocab.txt";
      PrintDownloaded "subdir/vocab.txt";
      Println (Repeat "=" 50);
      PrintComplete 2 3;
      PrintSaved "models/org_model" ] /\
  map URL (sent (snd r))
  = [ "https://huggingface.co/api/models/org/model/tree/main";
      "https://huggingface.co/org/model/resolve/main/config.json";
      "https://huggingface.co/org/model/resolve/main/subdir/missing.bin";
      "https://huggingface.co/org/model/resolve/main/subdir/vocab.txt" ] /\
  files (fs (snd r))
  = <["models/org_model/vocab.txt" := Scenario.vocab_body]>
      (<["models/org_model/config.json" := Scenario.config_body]> ∅).
Proof. vm_compute. repeat split. Qed.


(** ** Unix paths: the last element, and joining a plain name *)

Lemma list_of_append (a b : string) :
  list_ascii_of_string (a +:+ b) = list_ascii_of_string a ++ list_ascii_of_string b.
Proof. induction a as [|c a IH]; simpl; [reflexivity|]. now rewrite IH. Qed.

Lemma string_of_app (l1 l2 : list ascii) :
  string_of_list_ascii (l1 ++ l2) = string_of_list_ascii l1 +:+ string_of_list_ascii l2.
Proof. induction l1 as [|c l1 IH]; simpl; [reflexivity|]. now rewrite IH. Qed.

Lemma string_rev_append (a b : string) :
  string_rev (a +:+ b) = string_rev b +:+ string_rev a.
Proof. unfold string_rev. now rewrite list_of_append, rev_app_distr, string_of_app. Qed.

Lemma string_rev_involutive (s : string) : string_rev (string_rev s) = s.
Proof.
  unfold string_rev.
  now rewrite list_ascii_of_string_of_list_ascii, rev_involutive,
    string_of_list_ascii_of_string.
Qed.

Lemma forallb_rev {A} (q : A -> bool) (l : list A) : forallb q (rev l) = forallb q l.
Proof.
  induction l as [|x l IH]; simpl; [reflexivity|].
  rewrite forallb_app, IH. simpl. rewrite andb_true_r. apply andb_comm.
Qed.

Lemma slash_free_rev (s : string) : slash_free (string_rev s) = slash_free s.
Proof.
  unfold slash_free, string_rev.
  now rewrite list_ascii_of_string_of_list_ascii, forallb_rev.
Qed.

Lemma take_while_prefix (q : ascii -> bool) (a : string) c (b : string) :
  forallb q (list_ascii_of_string a) = true -> q c = false ->
  string_take_while q (a +:+ String c b) = a.
Proof.
  intros Ha Hc. induction a as [|x a IH]; simpl in *.
  - now rewrite Hc.
  - apply andb_true_iff in Ha as [Hx Ha]. rewrite Hx. now rewrite IH.
Qed.

Lemma take_while_all (q : ascii -> bool) (a : string) :
  forallb q (list_ascii_of_string a) = true -> string_take_while q a = a.
Proof.
  intros Ha. induction a as [|x a IH]; simpl in *; [reflexivity|].
  apply andb_true_iff in Ha as [Hx Ha]. rewrite Hx. now rewrite IH.
Qed.

Lemma drop_while_none (a b : string) :
  a <> "" -> slash_free a = true ->
  string_drop_while is_slash (a +:+ b) = a +:+ b.
Proof.
  intros Hne Ha. destruct a as [|c a]; [contradiction|].
  unfold slash_free in Ha. simpl in *. apply andb_true_iff in Ha as [Hc _].
  now destruct (is_slash c).
Qed.

Lemma string_rev_nonempty (s : string) : s <> "" -> string_rev s <> "".
Proof.
  intros Hs H. apply Hs. rewrite <- (string_rev_involutive s), H. reflexivity.
Qed.

Lemma plain_name_spec (name : string) :
  plain_name name = true ->
  slash_free name = true /\ name <> "" /\ name <> "." /\ name <> "..".
Proof.
  unfold plain_name. rewrite !andb_true_iff, !negb_true_iff.
  intros [[[H1 H2] H3] H4].
  repeat split; try assumption; intros ->; discriminate.
Qed.

Lemma append_cons (c : ascii) (a b : string) : String c a +:+ b = String c (a +:+ b).
Proof. reflexivity. Qed.

Lemma append_assoc' (a b c : string) : (a +:+ b) +:+ c = a +:+ (b +:+ c).
Proof.
  induction a as [|x a IH]; [reflexivity|]. now rewrite !append_cons, IH.
Qed.

(** On Unix, [Base] of a path that ends in a separator and a non-empty
    name without separator is this name. *)
Lemma Base_unix_last_element (dir name : string) :
  name <> "" -> slash_free name = true ->
  Base unix (dir +:+ "/" +:+ name) = name /\ Base unix name = name.
Proof.
  intros Hne Hfree.
  assert (Hstrip : forall p, strip_trailing_separators unix (p +:+ name) = p +:+ name).
  { intros p. unfold strip_trailing_separators. rewrite string_rev_append.
    cbn [IsPathSeparator unix].
    rewrite drop_while_none
      by (auto using string_rev_nonempty; now rewrite slash_free_rev).
    now rewrite <- string_rev_append, string_rev_involutive. }
  assert (Hfree' : forallb (fun c => negb (IsPathSeparator unix c))
                     (list_ascii_of_string (string_rev name)) = true).
  { apply (eq_trans (slash_free_rev name)). exact Hfree. }
  split.
  - replace (dir +:+ "/" +:+ name) with ((dir +:+ "/") +:+ name)
      by apply append_assoc'.
    unfold Base. destruct ((dir +:+ "/") +:+ name) as [|c p] eqn:Hp.
    { destruct dir; discriminate. }
    rewrite <- Hp, Hstrip. cbn [volumeNameLen unix drop_string].
    unfold last_element. rewrite !string_rev_append.
    replace (string_rev "/") with "/" by reflexivity.
    change ("/" +:+ string_rev dir) with (String "/" (string_rev dir)).
    rewrite take_while_prefix; [|exact Hfree'|reflexivity].
    rewrite string_rev_involutive. destruct name; [contradiction|reflexivity].
  - unfold Base. destruct name as [|c n] eqn:Hn; [contradiction|]. rewrite <- Hn in *.
    specialize (Hstrip ""). change ("" +:+ name) with name in Hstrip.
    rewrite Hstrip.
    cbn [volumeNameLen unix drop_string]. unfold last_element.
    rewrite take_while_all by exact Hfree'.
    rewrite string_rev_involutive. now rewrite Hn.
Qed.

Lemma append_nil_r (s : string) : s +:+ "" = s.
Proof. induction s as [|c s IH]; [reflexivity|]. now rewrite append_cons, IH. Qed.

Lemma string_rev_cons (c : ascii) (s : string) :
  string_rev (String c s) = string_rev s +:+ String c "".
Proof. change (String c s) with (String c "" +:+ s). apply string_rev_append. Qed.

Lemma split_elements_append (cur a b : string) :
  split_elements cur (a +:+ String slash b)
  = split_elements cur a ++ split_elements "" b.
Proof.
  revert cur. induction a as [|c a IH]; intros cur.
  - reflexivity.
  - rewrite append_cons. simpl. destruct (is_slash c); simpl; now rewrite IH.
Qed.

Lemma split_elements_plain (cur name : string) :
  slash_free name = true ->
  split_elements cur name = [string_rev cur +:+ name].
Proof.
  revert cur. induction name as [|c n IH]; intros cur Hfree.
  - simpl. now rewrite append_nil_r.
  - unfold slash_free in Hfree. simpl in Hfree.
    apply andb_true_iff in Hfree as [Hc Hn]. apply negb_true_iff in Hc.
    simpl. rewrite Hc, (IH _ Hn), string_rev_cons, append_assoc'. reflexivity.
Qed.

Lemma slash_free_append (a b : string) :
  slash_free (a +:+ b) = slash_free a && slash_free b.
Proof. unfold slash_free. now rewrite list_of_append, forallb_app. Qed.

Lemma split_elements_slash_free (cur path : string) :
  slash_free cur = true ->
  Forall (fun e => slash_free e = true) (split_elements cur path).
Proof.
  revert cur. induction path as [|c p IH]; intros cur Hcur; simpl.
  - constructor; [|constructor]. now rewrite slash_free_rev.
  - destruct (is_slash c) eqn:Hc.
    + constructor; [now rewrite slash_free_rev|]. now apply IH.
    + apply IH. unfold slash_free in *. simpl. now rewrite Hc.
Qed.

Lemma clean_step_kept rooted out e :
  slash_free e = true -> Forall kept out -> Forall kept (clean_step rooted out e).
Proof.
  intros He Hout. unfold clean_step.
  destruct (String.eqb_spec e ""); [assumption|].
  destruct (String.eqb_spec e "."); [assumption|].
  destruct (String.eqb_spec e "..") as [->|].
  - destruct out as [|top out'].
    + destruct rooted; repeat constructor; discriminate.
    + destruct (String.eqb top "..").
      * constructor; [|assumption]. repeat split; discriminate.
      * now inversion Hout.
  - constructor; [|assumption]. repeat split; assumption.
Qed.

Lemma clean_fold_kept rooted elems : forall out,
  Forall (fun e => slash_free e = true) elems -> Forall kept out ->
  Forall kept (fold_left (clean_step rooted) elems out).
Proof.
  induction elems as [|e elems IH]; intros out He Hout; simpl; [assumption|].
  inversion He; subst. apply IH; [assumption|]. now apply clean_step_kept.
Qed.

Lemma strings_Join_snoc (l : list string) (x sep : string) :
  strings_Join (l ++ [x]) sep
  = match l with [] => x | _ :: _ => strings_Join l sep +:+ sep +:+ x end.
Proof.
  induction l as [|e l IH]; [reflexivity|].
  destruct l as [|e' l'].
  - reflexivity.
  - change (strings_Join ((e :: e' :: l') ++ [x]) sep)
      with (e +:+ sep +:+ strings_Join ((e' :: l') ++ [x]) sep).
    rewrite IH.
    change (strings_Join (e :: e' :: l') sep)
      with (e +:+ sep +:+ strings_Join (e' :: l') sep).
    now rewrite !append_assoc'.
Qed.

(** The joined elements [Clean] keeps start with a character that is no
    separator, and are not ".". *)
Lemma joined_kept (l : list string) :
  l <> [] -> Forall kept l ->
  exists c rest, strings_Join l "/" = String c rest /\ is_slash c = false /\
                 String c rest <> ".".
Proof.
  intros Hne Hl. destruct l as [|e l]; [contradiction|].
  inversion Hl as [|? ? (Hfree & Hnonempty & Hdot) _]; subst.
  destruct e as [|c e']; [contradiction|].
  assert (Hc : is_slash c = false).
  { unfold slash_free in Hfree. simpl in Hfree.
    apply andb_true_iff in Hfree as [Hc _]. now apply negb_true_iff in Hc. }
  destruct l as [|e2 l].
  - exists c, e'. repeat split; assumption.
  - exists c, (e' +:+ "/" +:+ strings_Join (e2 :: l) "/").
    split; [reflexivity|]. split; [assumption|].
    intros H. injection H as _ H. destruct e'; discriminate.
Qed.

Lemma clean_step_plain rooted out name :
  plain_name name = true -> clean_step rooted out name = name :: out.
Proof.
  intros H. apply plain_name_spec in H as (_ & H1 & H2 & H3).
  unfold clean_step.
  apply String.eqb_neq in H1, H2, H3. now rewrite H1, H2, H3.
Qed.

Lemma unix_Clean_plain (x : ascii) (n : string) :
  plain_name (String x n) = true -> unix_Clean (String x n) = String x n.
Proof.
  intros Hplain.
  pose proof (plain_name_spec _ Hplain) as (Hfree & _).
  assert (Hx : is_slash x = false).
  { unfold slash_free in Hfree. simpl in Hfree.
    apply andb_true_iff in Hfree as [Hx _]. now apply negb_true_iff in Hx. }
  unfold unix_Clean. rewrite Hx, (split_elements_plain "" _ Hfree).
  change (string_rev "" +:+ String x n) with (String x n).
  cbn [fold_left]. now rewrite (clean_step_plain false [] _ Hplain).
Qed.

(** On Unix, joining a directory and a plain name puts the file right
    under the cleaned directory: the result is a prefix that depends on
    the directory alone, followed by the name. *)
Lemma unix_Join_plain (dir name : string) :
  plain_name name = true ->
  unix_Join [dir; name] = unix_dir_prefix dir +:+ name.
Proof.
  intros Hplain. pose proof (plain_name_spec name Hplain) as (Hfree & Hne & _ & _).
  destruct dir as [|c d].
  - (* an empty directory is skipped *)
    destruct name as [|x n]; [contradiction|].
    change (unix_Join [""; String x n]) with (unix_Clean (String x n)).
    change (unix_dir_prefix "" +:+ String x n) with (String x n).
    now apply unix_Clean_plain.
  - set (dir := String c d).
    set (rooted := is_slash c).
    set (out := fold_left (clean_step rooted) (split_elements "" dir) []).
    assert (Hkept : Forall kept (rev out)).
    { apply Forall_rev. apply clean_fold_kept; [|constructor].
      now apply split_elements_slash_free. }
    assert (Hclean : unix_Join [dir] =
              if rooted then "/" +:+ strings_Join (rev out) "/"
              else match strings_Join (rev out) "/" with
                   | "" => "."
                   | String _ _ => strings_Join (rev out) "/"
                   end) by reflexivity.
    assert (Hjoin : unix_Join [dir; name] =
              if rooted then "/" +:+ strings_Join (rev out ++ [name]) "/"
              else match strings_Join (rev out ++ [name]) "/" with
                   | "" => "."
                   | String _ _ => strings_Join (rev out ++ [name]) "/"
                   end).
    { change (unix_Join [dir; name]) with (unix_Clean (dir +:+ String slash name)).
      unfold unix_Clean. subst dir. rewrite append_cons.
      rewrite <- (append_cons c d (String slash name)).
      rewrite split_elements_append, fold_left_app.
      rewrite (split_elements_plain "" name Hfree).
      change (string_rev "" +:+ name) with name. cbn [fold_left].
      fold rooted. fold out. rewrite (clean_step_plain rooted out name Hplain).
      reflexivity. }
    rewrite Hjoin. unfold unix_dir_prefix. rewrite Hclean.
    rewrite strings_Join_snoc.
    destruct (rev out) as [|e l] eqn:Hrev.
    + (* the directory cleans to "/" or "." *)
      cbn [strings_Join]. destruct rooted.
      * reflexivity.
      * change ("." =? "")%string with false. change ("." =? ".")%string with true.
        cbv iota. change ("" +:+ name) with name.
        destruct name; [contradiction|reflexivity].
    + destruct (joined_kept (e :: l) ltac:(discriminate) Hkept)
        as (x & rest & Hbody & Hx & Hdot).
      rewrite Hbody. destruct rooted.
      * change ("/" +:+ String x rest) with (String "/" (String x rest)).
        change (String "/" (String x rest) =? "")%string with false.
        replace (String "/" (String x rest) =? ".")%string with false
          by (symmetry; now apply String.eqb_neq).
        replace (String "/" (String x rest) =? "/")%string with false
          by (symmetry; now apply String.eqb_neq).
        cbv iota. now rewrite !append_cons, !append_assoc'.
      * change (String x rest =? "")%string with false.
        replace (String x rest =? ".")%string with false
          by (symmetry; now apply String.eqb_neq).
        replace (String x rest =? "/")%string with false.
        2:{ symmetry. apply String.eqb_neq. intros H. injection H as -> _.
            discriminate. }
        cbv iota. rewrite !append_cons, !append_assoc'. reflexivity.
Qed.

(** On Unix, a file of the listing at [sub/name] is written right under
    the model directory: [sub] is not part of the output path. *)
Lemma unix_output_is_flat (modelDir sub name : string) :
  plain_name name = true ->
  let item := {| item_Type := "file"; item_Path := sub +:+ "/" +:+ name;
                 item_Size := 0 |} in
  Join unix [modelDir; Full.Name (full_entry unix item)]
  = unix_dir_prefix modelDir +:+ name.
Proof.
  intros Hplain item.
  pose proof (plain_name_spec name Hplain) as (Hfree & Hne & _).
  cbn [Full.Name full_entry item item_Path].
  rewrite (proj1 (Base_unix_last_element sub name Hne Hfree)).
  now apply unix_Join_plain.
Qed.

(* ===================================================================== *)
(** * Further properties of the two programs *)
(* ===================================================================== *)

(** ** One download, step by step *)

(** [io.Copy] after [os.Create]: what is in the file is the start of the
    body; it is the whole body when no error is returned. *)
Lemma Copy_prefix E out bar resp (w : World) l :
  let w2 := {| fs := {| files := <[out := []]> (files (fs w)); dirs := dirs (fs w) |};
               sent := sent w ++ l; console := console w |} in
  exists data,
    snd (Copy E out bar resp w2)
    = {| fs := {| files := <[out := data]> (files (fs w)); dirs := dirs (fs w) |};
         sent := sent w ++ l; console := console w |} /\
    fst (fst (Copy E out bar resp w2)) = Z.of_nat (List.length data) /\
    (exists rest, Body resp = data ++ rest) /\
    (snd (fst (Copy E out bar resp w2)) = None ->
     data = Body resp /\ BodyErr resp = None).
Proof.
  intros w2. unfold Copy.
  destruct (write_limit E (fs w2) out bar (Body resp)) as [[n e]|].
  - destruct (n <? List.length (Body resp))%nat.
    + exists (take n (Body resp)). subst w2. cbn [fst snd fs files dirs sent console].
      rewrite insert_insert_eq. split; [reflexivity|]. split; [reflexivity|].
      split; [exists (drop n (Body resp)); now rewrite take_drop|discriminate].
    + exists (Body resp). subst w2. cbn [fst snd fs files dirs sent console].
      rewrite insert_insert_eq. split; [reflexivity|]. split; [reflexivity|].
      split; [exists []; now rewrite app_nil_r|auto].
  - exists (Body resp). subst w2. cbn [fst snd fs files dirs sent console].
    rewrite insert_insert_eq. split; [reflexivity|]. split; [reflexivity|].
    split; [exists []; now rewrite app_nil_r|auto].
Qed.

(** Step by step, what [downloadFile] of the full version does. *)
Lemma full_downloadFile_steps P E config file w :
  let url :=
    download_url (Full.BaseURL config) (Full.ModelName config) (Full.Path file) in
  let out := Join P [Full.ModelDir config; Full.Name file] in
  let r := Full.downloadFile P E config file w in
  match parse_error E url with
  | Some err => r = (Some (wrapError "failed to create request: " err), w)
  | None =>
      sent (snd r) = sent w ++ [download_request url] /\
      match round_trip E (sent w) (download_request url) with
      | inl err =>
          fst r = Some (wrapError "failed to download: " err) /\ fs (snd r) = fs w
      | inr resp =>
          if (StatusCode resp =? StatusOK)%Z then
            match create_error E (fs w) out with
            | Some err =>
                fst r = Some (wrapError "failed to create output file: " err) /\
                fs (snd r) = fs w
            | None =>
                exists data,
                  fs (snd r)
                  = {| files := <[out := data]> (files (fs w));
                       dirs := dirs (fs w) |} /\
                  (exists rest, Body resp = data ++ rest) /\
                  ((fst r = None /\ data = Body resp /\ BodyErr resp = None) \/
                   (exists err, fst r = Some (wrapError "failed to save file: " err)))
            end
          else
            fst r = Some (statusError "download failed with status: "
                            (StatusCode resp)) /\
            fs (snd r) = fs w
      end
  end.
Proof.
  intros url out r. subst r. unfold Full.downloadFile.
  fold (download_url (Full.BaseURL config) (Full.ModelName config) (Full.Path file)).
  fold url. fold out.
  destruct (parse_error E url) as [err|] eqn:Hparse.
  { now rewrite (NewRequest_error E url err Hparse). }
  rewrite (NewRequest_download E url Hparse).
  change (Header_Set (Header_Set _ _ _) _ _) with (download_request url).
  rewrite bind_run, Client_Do_run. cbn [fst snd].
  destruct (round_trip E (sent w) (download_request url)) as [err|resp] eqn:Hrt.
  { repeat split. }
  destruct (Z.eqb_spec (StatusCode resp) StatusOK) as [Hst|Hst]; cbn [negb].
  2:{ repeat split. }
  rewrite bind_run.
  set (w1 := {| fs := fs w; sent := sent w ++ [download_request url];
                console := console w |}).
  destruct (Create_run E out w1) as [(err & Hce & Hc)|(Hce & Hc)];
    rewrite Hc; cbn [fst snd]; cbn [fs w1] in Hce; rewrite Hce.
  { repeat split. }
  rewrite bind_run. cbv zeta.
  assert (exists bar,
    (match (if (Full.Size file >? 0)%Z then Some (Full.Size file) else None) with
     | Some max => Copy E out (Some max) resp
     | None => Copy E out None resp
     end) = Copy E out bar resp) as [bar ->].
  { destruct (Full.Size file >? 0)%Z; eauto. }
  subst w1. cbn [fs sent console].
  destruct (Copy_prefix E out bar resp w [download_request url])
    as (data & Hs & _ & Hpre & Hok).
  cbv zeta in Hs, Hok. rewrite Hs.
  destruct (snd (fst (Copy E out bar resp _))) as [err|];
    unfold ret; cbn [fst snd console dirs fs files sent];
    (split; [reflexivity|]); exists data; (split; [reflexivity|]);
    (split; [exact Hpre|]).
  - right. eauto.
  - left. split; [reflexivity|]. now apply Hok.
Qed.

(** The same for the simple version, with what it prints. *)
Lemma simple_downloadFile_steps P E baseURL modelName modelDir file w :
  let url := download_url baseURL modelName (Simple.Path file) in
  let out := Join P [modelDir; Simple.Name file] in
  let r := Simple.downloadFile P E baseURL modelName modelDir file w in
  let start := PrintFileStart (Simple.Name file) (Simple.Size file) in
  match parse_error E url with
  | Some err => r = (Some (wrapError "failed to create request: " err), w)
  | None =>
      sent (snd r) = sent w ++ [download_request url] /\
      match round_trip E (sent w) (download_request url) with
      | inl err =>
          fst r = Some (wrapError "failed to download: " err) /\
          fs (snd r) = fs w /\ console (snd r) = console w
      | inr resp =>
          if (StatusCode resp =? StatusOK)%Z then
            match create_error E (fs w) out with
            | Some err =>
                fst r = Some (wrapError "failed to create output file: " err) /\
                fs (snd r) = fs w /\ console (snd r) = console w
            | None =>
                exists data,
                  fs (snd r)
                  = {| files := <[out := data]> (files (fs w));
                       dirs := dirs (fs w) |} /\
                  (exists rest, Body resp = data ++ rest) /\
                  ((fst r = None /\ data = Body resp /\ BodyErr resp = None /\
                    console (snd r)
                    = console w ++ [start; PrintFileDone (Simple.Name file)
                                             (Z.of_nat (List.length data))]) \/
                   (exists err,
                      fst r = Some (wrapError "failed to save file: " err) /\
                      console (snd r) = console w ++ [start]))
            end
          else
            fst r = Some (statusError "download failed with status: "
                            (StatusCode resp)) /\
            fs (snd r) = fs w /\ console (snd r) = console w
      end
  end.
Proof.
  intros url out r start. subst r. unfold Simple.downloadFile.
  fold (download_url baseURL modelName (Simple.Path file)).
  fold url. fold out. fold start.
  destruct (parse_error E url) as [err|] eqn:Hparse.
  { now rewrite (NewRequest_error E url err Hparse). }
  rewrite (NewRequest_download E url Hparse).
  change (Header_Set (Header_Set _ _ _) _ _) with (download_request url).
  rewrite bind_run, Client_Do_run. cbn [fst snd].
  destruct (round_trip E (sent w) (download_request url)) as [err|resp] eqn:Hrt.
  { repeat split. }
  destruct (Z.eqb_spec (StatusCode resp) StatusOK) as [Hst|Hst]; cbn [negb].
  2:{ repeat split. }
  rewrite bind_run.
  set (w1 := {| fs := fs w; sent := sent w ++ [download_request url];
                console := console w |}).
  destruct (Create_run E out w1) as [(err & Hce & Hc)|(Hce & Hc)];
    rewrite Hc; cbn [fst snd]; cbn [fs w1] in Hce; rewrite Hce.
  { repeat split. }
  rewrite bind_print, bind_run. cbv zeta.
  subst w1. unfold add_line. cbn [fs sent console].
  set (w0 := {| fs := fs w; sent := sent w; console := console w ++ [start] |}).
  destruct (Copy_prefix E out None resp w0 [download_request url])
    as (data & Hs & Hn & Hpre & Hok).
  cbv zeta in Hs, Hn, Hok. subst w0. cbn [fs sent console] in Hs, Hn, Hok.
  rewrite Hs, Hn.
  destruct (snd (fst (Copy E out None resp _))) as [err|].
  - unfold ret; cbn [fst snd console dirs fs files sent].
    split; [reflexivity|]. exists data. split; [reflexivity|].
    split; [exact Hpre|]. right. eauto.
  - rewrite bind_print. unfold ret, add_line; cbn [fst snd console dirs fs files sent].
    split; [reflexivity|]. exists data. split; [reflexivity|].
    split; [exact Hpre|]. left. destruct (Hok eq_refl) as [-> ->].
    repeat split. now rewrite <- app_assoc.
Qed.



(** X8: when the download is answered with status 200 but [os.Create]
    fails, [downloadFile] (either version) returns that error wrapped in
    "failed to create output file: ", and the disk is as it was; the
    simple version has printed nothing. *)
Theorem create_failure_leaves_disk P E config file simple_file w resp err :
  Simple.Path simple_file = Full.Path file ->
  Simple.Name simple_file = Full.Name file ->
  let url :=
    download_url (Full.BaseURL config) (Full.ModelName config) (Full.Path file) in
  let out := Join P [Full.ModelDir config; Full.Name file] in
  let r := Full.downloadFile P E config file w in
  let simple_r :=
    Simple.downloadFile P E (Full.BaseURL config) (Full.ModelName config)
      (Full.ModelDir config) simple_file w in
  parse_error E url = None ->
  round_trip E (sent w) (download_request url) = inr resp ->
  StatusCode resp = StatusOK ->
  create_error E (fs w) out = Some err ->
  fst r = Some (wrapError "failed to create output file: " err) /\
  fs (snd r) = fs w /\
  fst simple_r = Some (wrapError "failed to create output file: " err) /\
  fs (snd simple_r) = fs w /\
  console (snd simple_r) = console w.
Proof.
  intros Hpath Hname url out r simple_r Hparse Hrt Hst Hcreate.
  pose proof (full_downloadFile_steps P E config file w) as Hfull.
  pose proof (simple_downloadFile_steps P E (Full.BaseURL config)
                (Full.ModelName config) (Full.ModelDir config) simple_file w)
    as Hsimple.
  cbv zeta in Hfull, Hsimple. rewrite Hpath, Hname in Hsimple.
  fold url out r in Hfull. fold url out simple_r in Hsimple.
  rewrite Hparse, Hrt, Hst, Hcreate in Hfull, Hsimple.
  change (StatusOK =? StatusOK)%Z with true in *.
  destruct Hfull as (_ & ? & ?), Hsimple as (_ & ? & ? & ?). auto.
Qed.

Lemma create_failure_leaves_disk_witness :
  fst (Full.downloadFile unix Scenario.readonly_env Scenario.full_config
         Scenario.config_entry Scenario.start)
  = Some (wrapError "failed to create output file: "
            (errorString "permission denied")) /\
  fs (snd (Full.downloadFile unix Scenario.readonly_env Scenario.full_config
             Scenario.config_entry Scenario.start)) = fs Scenario.start /\
  fst (Simple.downloadFile unix Scenario.readonly_env "https://huggingface.co"
         "org/model" "models/org_model" Scenario.simple_config_entry Scenario.start)
  = Some (wrapError "failed to create output file: "
            (errorString "permission denied")) /\
  fs (snd (Simple.downloadFile unix Scenario.readonly_env "https://huggingface.co"
             "org/model" "models/org_model" Scenario.simple_config_entry
             Scenario.start)) = fs Scenario.start /\
  console (snd (Simple.downloadFile unix Scenario.readonly_env
                  "https://huggingface.co" "org/model" "models/org_model"
                  Scenario.simple_config_entry Scenario.start))
  = console Scenario.start.
Proof.
  apply (create_failure_leaves_disk unix Scenario.readonly_env Scenario.full_config
           Scenario.config_entry Scenario.simple_config_entry Scenario.start
           {| StatusCode := 200; Body := Scenario.config_body; BodyErr := None |}
           (errorString "permission denied")); reflexivity.
Defined.

(** X9: when the answer has status 200, the file was created, and the
    body ends in a read error, [downloadFile] (either version) returns an
    error wrapped in "failed to save file: " and leaves a file at the
    output path that holds a beginning of the body: nothing is cleaned
    up. *)
Theorem failed_copy_leaves_partial_file P E config file simple_file w resp :
  Simple.Path simple_file = Full.Path file ->
  Simple.Name simple_file = Full.Name file ->
  let url :=
    download_url (Full.BaseURL config) (Full.ModelName config) (Full.Path file) in
  let out := Join P [Full.ModelDir config; Full.Name file] in
  let r := Full.downloadFile P E config file w in
  let simple_r :=
    Simple.downloadFile P E (Full.BaseURL config) (Full.ModelName config)
      (Full.ModelDir config) simple_file w in
  parse_error E url = None ->
  round_trip E (sent w) (download_request url) = inr resp ->
  StatusCode resp = StatusOK ->
  create_error E (fs w) out = None ->
  BodyErr resp <> None ->
  (exists data rest err,
     fst r = Some (wrapError "failed to save file: " err) /\
     files (fs (snd r)) !! out = Some data /\ Body resp = data ++ rest) /\
  (exists data rest err,
     fst simple_r = Some (wrapError "failed to save file: " err) /\
     files (fs (snd simple_r)) !! out = Some data /\ Body resp = data ++ rest).
Proof.
  intros Hpath Hname url out r simple_r Hparse Hrt Hst Hcreate Hcut.
  pose proof (full_downloadFile_steps P E config file w) as Hfull.
  pose proof (simple_downloadFile_steps P E (Full.BaseURL config)
                (Full.ModelName config) (Full.ModelDir config) simple_file w)
    as Hsimple.
  cbv zeta in Hfull, Hsimple. rewrite Hpath, Hname in Hsimple.
  fold url out r in Hfull. fold url out simple_r in Hsimple.
  rewrite Hparse, Hrt, Hcreate in Hfull, Hsimple.
  destruct (Z.eqb_spec (StatusCode resp) StatusOK); [|contradiction].
  destruct Hfull as (_ & data & Hfs & [rest Hrest] & Hres).
  destruct Hsimple as (_ & data' & Hfs' & [rest' Hrest'] & Hres').
  split.
  - destruct Hres as [(_ & _ & Heof)|[err Herr]]; [contradiction|].
    exists data, rest, err. split; [exact Herr|]. split; [|exact Hrest].
    rewrite Hfs. cbn [files]. apply lookup_insert_eq.
  - destruct Hres' as [(_ & _ & Heof & _)|(err & Herr & _)]; [contradiction|].
    exists data', rest', err. split; [exact Herr|]. split; [|exact Hrest'].
    rewrite Hfs'. cbn [files]. apply lookup_insert_eq.
Qed.

Lemma failed_copy_leaves_partial_file_witness :
  (exists data rest err,
     fst (Full.downloadFile unix Scenario.cut_env Scenario.full_config
            Scenario.config_entry Scenario.start)
     = Some (wrapError "failed to save file: " err) /\
     files (fs (snd (Full.downloadFile unix Scenario.cut_env Scenario.full_config
                       Scenario.config_entry Scenario.start)))
       !! "models/org_model/config.json" = Some data /\
     Scenario.cut_body = data ++ rest) /\
  (exists data rest err,
     fst (Simple.downloadFile unix Scenario.cut_env "https://huggingface.co"
            "org/model" "models/org_model" Scenario.simple_config_entry
            Scenario.start)
     = Some (wrapError "failed to save file: " err) /\
     files (fs (snd (Simple.downloadFile unix Scenario.cut_env
                       "https://huggingface.co" "org/model" "models/org_model"
                       Scenario.simple_config_entry Scenario.start)))
       !! "models/org_model/config.json" = Some data /\
     Scenario.cut_body = data ++ rest).
Proof.
  apply (failed_copy_leaves_partial_file unix Scenario.cut_env Scenario.full_config
           Scenario.config_entry Scenario.simple_config_entry Scenario.start
           {| StatusCode := 200; Body := Scenario.cut_body;
              BodyErr := Some (errorString "unexpected EOF") |});
    try reflexivity.
  discriminate.
Defined.

(** X10: two entries with the same [Name], downloaded one after the
    other (full version): when the second download succeeds, the disk is
    the disk from before the first download with the body of the second
    at the output path; nothing of the first is left. *)
Theorem same_name_overwrites P E config first second w w1 :
  Full.Name first = Full.Name second ->
  fs w1 = fs (snd (Full.downloadFile P E config first w)) ->
  fst (Full.downloadFile P E config second w1) = None ->
  let url :=
    download_url (Full.BaseURL config) (Full.ModelName config) (Full.Path second) in
  let out := Join P [Full.ModelDir config; Full.Name second] in
  exists resp,
    round_trip E (sent w1) (download_request url) = inr resp /\
    fs (snd (Full.downloadFile P E config second w1))
    = {| files := <[out := Body resp]> (files (fs w)); dirs := dirs (fs w) |}.
Proof.
  intros Hname Hw1 Hok url out.
  destruct (full_downloadFile_run P E config first w)
    as (_ & Hdirs1 & Hfirst).
  rewrite <- Hw1 in Hdirs1, Hfirst. rewrite Hname in Hfirst. fold out in Hfirst.
  pose proof (full_downloadFile_steps P E config second w1) as Hsecond.
  cbv zeta in Hsecond. fold url out in Hsecond.
  destruct (parse_error E url); [rewrite Hsecond in Hok; discriminate|].
  destruct Hsecond as [_ Hsecond].
  destruct (round_trip E (sent w1) (download_request url)) as [err|resp];
    [destruct Hsecond; congruence|].
  exists resp. split; [reflexivity|].
  destruct (StatusCode resp =? StatusOK)%Z; [|destruct Hsecond; congruence].
  destruct (create_error E (fs w1) out); [destruct Hsecond; congruence|].
  destruct Hsecond as (data & Hfs & _ & [(_ & -> & _)|[err Herr]]); [|congruence].
  rewrite Hfs, Hdirs1. f_equal.
  destruct Hfirst as [(_ & _ & -> & _)|(_ & data1 & _ & _ & -> & _)];
    [reflexivity|apply insert_insert_eq].
Qed.

Lemma same_name_overwrites_witness :
  exists resp,
    round_trip Scenario.twins_env
      (sent (snd (Full.downloadFile unix Scenario.twins_env Scenario.full_config
                    Scenario.encoder_entry Scenario.start)))
      (download_request
         "https://huggingface.co/org/model/resolve/main/decoder/config.json")
    = inr resp /\
    fs (snd (Full.downloadFile unix Scenario.twins_env Scenario.full_config
               Scenario.decoder_entry
               (snd (Full.downloadFile unix Scenario.twins_env Scenario.full_config
                       Scenario.encoder_entry Scenario.start))))
    = {| files := <["models/org_model/config.json" := Body resp]> ∅; dirs := ∅ |}.
Proof.
  apply (same_name_overwrites unix Scenario.twins_env Scenario.full_config
           Scenario.encoder_entry Scenario.decoder_entry Scenario.start
           (snd (Full.downloadFile unix Scenario.twins_env Scenario.full_config
                   Scenario.encoder_entry Scenario.start)));
    reflexivity.
Defined.

(** ** The listing: effects, errors, and what the entries are *)





Lemma full_getModelFiles_error_nil P E config w err :
  snd (fst (Full.getModelFiles P E config w)) = Some err ->
  fst (Full.getModelFiles P E config w) = ([], Some err).
Proof.
  unfold Full.getModelFiles. rewrite bind_run.
  destruct (fst (Get E _ w)) as [e|resp]; [now intros [= <-]|].
  destruct (negb _); [now intros [= <-]|].
  destruct (json_Decode _ _ _); [now intros [= <-]|discriminate].
Qed.

Lemma simple_getModelFiles_error_nil P E apiURL modelName w err :
  snd (fst (Simple.getModelFiles P E apiURL modelName w)) = Some err ->
  fst (Simple.getModelFiles P E apiURL modelName w) = ([], Some err).
Proof.
  unfold Simple.getModelFiles. rewrite bind_run.
  destruct (fst (Get E _ w)) as [e|resp]; [now intros [= <-]|].
  destruct (negb _); [now intros [= <-]|].
  destruct (json_Decode _ _ _); [now intros [= <-]|discriminate].
Qed.

(** X6: every entry [getModelFiles] (either version) returns has the
    type "file", in every world and whatever the listing holds. *)
Theorem getModelFiles_entries_are_files P E config w :
  Forall (fun f => Full.Type_ f = "file")
    (fst (fst (Full.getModelFiles P E config w))) /\
  Forall (fun f => Simple.Type_ f = "file")
    (fst (fst (Simple.getModelFiles P E (Full.APIURL config)
                 (Full.ModelName config) w))).
Proof.
  assert (Hfile : forall items,
            Forall (fun item => item_Type item = "file") (List.filter is_file items)).
  { intros items. apply List.Forall_forall. intros item Hin.
    apply List.filter_In in Hin as [_ Hin]. now apply String.eqb_eq in Hin. }
  unfold Full.getModelFiles, Simple.getModelFiles. rewrite !bind_run.
  destruct (fst (Get E _ w)) as [e|resp]; [split; constructor|].
  destruct (negb _); [split; constructor|].
  destruct (json_Decode _ _ _) as [e|items]; [split; constructor|].
  cbn [fst snd ret]. rewrite full_loop, simple_loop.
  split; apply Forall_map; exact (Hfile items).
Qed.

(** ** The ways [main] ends *)

Lemma MkdirAll_error E path w err :
  mkdir_error E (fs w) path = Some err -> MkdirAll E path w = (Some err, w).
Proof. intros H. unfold MkdirAll. now rewrite H. Qed.

Lemma full_main_help P E flags w :
  Full.help flags = true ->
  Full.main P E flags w
  = (0%Z,
     {| fs := fs w; sent := sent w;
        console :=
          console w
          ++ [ Println Full.title; Println (Repeat "=" 50);
               Println "Usage: go run main.go [options]"; Println "";
               Println "Options:"; PrintDefaults; Println "";
               Println "Examples:";
               Println "  go run main.go -model Qwen/Qwen2.5-Coder-0.5B";
               Println "  go run main.go -model microsoft/DialoGPT-medium";
               Println
                 "  go run main.go -model meta-llama/Llama-2-7b-chat-hf -output D:\models"
             ] |}).
Proof.
  intros Hhelp. unfold Full.main. rewrite Hhelp. cbv iota.
  rewrite !bind_print. unfold ret, add_line. cbn [fs sent console].
  now rewrite <- !app_assoc.
Qed.

Lemma simple_main_help P E flags w :
  Simple.help flags = true ->
  Simple.main P E flags w
  = (0%Z,
     {| fs := fs w; sent := sent w;
        console :=
          console w
          ++ [ Println Simple.title; Println (Repeat "=" 50);
               Println "Usage: hugdl [options]"; Println "";
               Println "Options:"; PrintDefaults; Println "";
               Println "Examples:";
               Println "  hugdl -model Qwen/Qwen2.5-Coder-0.5B";
               Println "  hugdl -model microsoft/DialoGPT-medium";
               Println
                 "  hugdl -model meta-llama/Llama-2-7b-chat-hf -output D:\models"
             ] |}).
Proof.
  intros Hhelp. unfold Simple.main. rewrite Hhelp. cbv iota.
  rewrite !bind_print. unfold ret, add_line. cbn [fs sent console].
  now rewrite <- !app_assoc.
Qed.

(** X1: with [-help], [main] (either version) prints the eleven lines
    of the usage, the flag defaults among them, and returns with exit
    code 0: no request is sent and the disk is not touched. *)
Theorem help_does_nothing P E (flags : Full.Flags) (simple_flags : Simple.Flags) w :
  Full.help flags = true ->
  Simple.help simple_flags = true ->
  let r := Full.main P E flags w in
  let simple_r := Simple.main P E simple_flags w in
  (fst r = 0%Z /\ fs (snd r) = fs w /\ sent (snd r) = sent w /\
   In PrintDefaults (drop (List.length (console w)) (console (snd r))) /\
   List.length (console (snd r)) = List.length (console w) + 11) /\
  (fst simple_r = 0%Z /\ fs (snd simple_r) = fs w /\ sent (snd simple_r) = sent w /\
   In PrintDefaults (drop (List.length (console w)) (console (snd simple_r))) /\
   List.length (console (snd simple_r)) = List.length (console w) + 11).
Proof.
  intros Hhelp Hhelp' r simple_r. subst r simple_r.
  rewrite (full_main_help P E flags w Hhelp),
    (simple_main_help P E simple_flags w Hhelp').
  cbn [fst snd fs sent console]. rewrite !drop_app_length, !length_app.
  repeat split; simpl; auto 10.
Qed.

Lemma help_does_nothing_witness :
  let r := Full.main unix Scenario.env Scenario.help_full_flags Scenario.start in
  let simple_r :=
    Simple.main unix Scenario.env Scenario.help_simple_flags Scenario.start in
  (fst r = 0%Z /\ fs (snd r) = fs Scenario.start /\ sent (snd r) = [] /\
   In PrintDefaults (drop 0 (console (snd r))) /\
   List.length (console (snd r)) = 11) /\
  (fst simple_r = 0%Z /\ fs (snd simple_r) = fs Scenario.start /\
   sent (snd simple_r) = [] /\
   In PrintDefaults (drop 0 (console (snd simple_r))) /\
   List.length (console (snd simple_r)) = 11).
Proof.
  apply (help_does_nothing unix Scenario.env Scenario.help_full_flags
           Scenario.help_simple_flags Scenario.start); reflexivity.
Defined.

(** When the listing fails, whatever the failure. *)
Lemma full_main_listing_fails P E flags w err :
  Full.help flags = false ->
  snd (fst (Full.getModelFiles P E (Full.configure P flags) w)) = Some err ->
  fst (Full.main P E flags w) = 1%Z /\
  fs (snd (Full.main P E flags w)) = fs w /\
  sent (snd (Full.main P E flags w))
  = sent (snd (Full.getModelFiles P E (Full.configure P flags) w)) /\
  last (console (snd (Full.main P E flags w))) = Some (PrintListError err).
Proof.
  intros Hhelp Herr. apply full_getModelFiles_error_nil in Herr as Hlist.
  unfold Full.main. rewrite Hhelp. cbv iota. rewrite !bind_print, bind_run.
  match goal with |- context [Full.getModelFiles P E ?c ?w'] =>
    rewrite (full_getModelFiles_sent P E c w' w eq_refl), Hlist;
    pose proof (full_getModelFiles_fs P E c w') as Hfs;
    pose proof (full_getModelFiles_sent_after P E c w' w eq_refl) as Hsent
  end.
  cbn [fst snd]. rewrite bind_print. unfold ret. cbn [fst snd].
  unfold add_line at 1 2 3 4. cbn [fs sent console].
  split; [reflexivity|]. split; [exact Hfs|]. split; [exact Hsent|].
  apply last_snoc.
Qed.

Lemma simple_main_listing_fails P E flags w err :
  Simple.help flags = false ->
  snd (fst (Simple.getModelFiles P E "https://huggingface.co/api"
              (Simple.modelName flags) w)) = Some err ->
  fst (Simple.main P E flags w) = 1%Z /\
  fs (snd (Simple.main P E flags w)) = fs w /\
  sent (snd (Simple.main P E flags w))
  = sent (snd (Simple.getModelFiles P E "https://huggingface.co/api"
                 (Simple.modelName flags) w)) /\
  last (console (snd (Simple.main P E flags w))) = Some (PrintListError err).
Proof.
  intros Hhelp Herr. apply simple_getModelFiles_error_nil in Herr as Hlist.
  unfold Simple.main. rewrite Hhelp. cbv iota zeta. rewrite !bind_print, bind_run.
  match goal with |- context [Simple.getModelFiles P E ?a ?m ?w'] =>
    rewrite (simple_getModelFiles_sent P E a m w' w eq_refl), Hlist;
    pose proof (simple_getModelFiles_fs P E a m w') as Hfs;
    pose proof (simple_getModelFiles_sent_after P E a m w' w eq_refl) as Hsent
  end.
  cbn [fst snd]. rewrite bind_print. unfold ret. cbn [fst snd].
  unfold add_line at 1 2 3 4. cbn [fs sent console].
  split; [reflexivity|]. split; [exact Hfs|]. split; [exact Hsent|].
  apply last_snoc.
Qed.

(** When the listing is there and the directory cannot be made. *)
Lemma full_main_mkdir_fails P E flags w files err :
  Full.help flags = false ->
  fst (Full.getModelFiles P E (Full.configure P flags) w) = (files, None) ->
  mkdir_error E (fs w) (Full.ModelDir (Full.configure P flags)) = Some err ->
  fst (Full.main P E flags w) = 1%Z /\
  fs (snd (Full.main P E flags w)) = fs w /\
  sent (snd (Full.main P E flags w))
  = sent (snd (Full.getModelFiles P E (Full.configure P flags) w)) /\
  last (console (snd (Full.main P E flags w))) = Some (PrintMkdirError err).
Proof.
  intros Hhelp Hlist Hmk.
  unfold Full.main. rewrite Hhelp. cbv iota. rewrite !bind_print, bind_run.
  match goal with |- context [Full.getModelFiles P E ?c ?w'] =>
    rewrite (full_getModelFiles_sent P E c w' w eq_refl), Hlist;
    pose proof (full_getModelFiles_fs P E c w') as Hfs;
    pose proof (full_getModelFiles_sent_after P E c w' w eq_refl) as Hsent;
    set (wl := snd (Full.getModelFiles P E c w')) in *
  end.
  cbn [fst snd]. rewrite bind_print, bind_run.
  rewrite (MkdirAll_error E _ _ err)
    by (cbn [add_line fs]; rewrite Hfs; cbn [add_line fs]; exact Hmk).
  cbn [fst snd]. rewrite bind_print. unfold ret. cbn [fst snd].
  unfold add_line. cbn [fs sent console].
  split; [reflexivity|]. split; [exact Hfs|]. split; [exact Hsent|].
  apply last_snoc.
Qed.

Lemma simple_main_mkdir_fails P E flags w files err :
  Simple.help flags = false ->
  fst (Simple.getModelFiles P E "https://huggingface.co/api"
         (Simple.modelName flags) w) = (files, None) ->
  mkdir_error E (fs w) (Simple.modelDir P flags) = Some err ->
  fst (Simple.main P E flags w) = 1%Z /\
  fs (snd (Simple.main P E flags w)) = fs w /\
  sent (snd (Simple.main P E flags w))
  = sent (snd (Simple.getModelFiles P E "https://huggingface.co/api"
                 (Simple.modelName flags) w)) /\
  last (console (snd (Simple.main P E flags w))) = Some (PrintMkdirError err).
Proof.
  intros Hhelp Hlist Hmk.
  unfold Simple.main. rewrite Hhelp. cbv iota zeta. rewrite !bind_print, bind_run.
  match goal with |- context [Simple.getModelFiles P E ?a ?m ?w'] =>
    rewrite (simple_getModelFiles_sent P E a m w' w eq_refl), Hlist;
    pose proof (simple_getModelFiles_fs P E a m w') as Hfs;
    pose proof (simple_getModelFiles_sent_after P E a m w' w eq_refl) as Hsent;
    set (wl := snd (Simple.getModelFiles P E a m w')) in *
  end.
  cbn [fst snd]. rewrite bind_print, bind_run.
  rewrite (MkdirAll_error E _ _ err)
    by (cbn [add_line fs]; rewrite Hfs; cbn [add_line fs]; exact Hmk).
  cbn [fst snd]. rewrite bind_print. unfold ret. cbn [fst snd].
  unfold add_line. cbn [fs sent console].
  split; [reflexivity|]. split; [exact Hfs|]. split; [exact Hsent|].
  apply last_snoc.
Qed.

(** X4: whenever [getModelFiles] returns an error (the request failed,
    the status was not 200, or the body did not decode) it returns no
    entry with it, and [main] (either version) prints this error last and
    exits with code 1: the disk is as it was and nothing is requested
    after the listing. *)
Theorem listing_error_is_fatal P E (flags : Full.Flags)
    (simple_flags : Simple.Flags) w err simple_err :
  Full.help flags = false ->
  Simple.help simple_flags = false ->
  snd (fst (Full.getModelFiles P E (Full.configure P flags) w)) = Some err ->
  snd (fst (Simple.getModelFiles P E "https://huggingface.co/api"
              (Simple.modelName simple_flags) w)) = Some simple_err ->
  let listed := Full.getModelFiles P E (Full.configure P flags) w in
  let simple_listed :=
    Simple.getModelFiles P E "https://huggingface.co/api"
      (Simple.modelName simple_flags) w in
  let r := Full.main P E flags w in
  let simple_r := Simple.main P E simple_flags w in
  (fst (fst listed) = [] /\ fst r = 1%Z /\ fs (snd r) = fs w /\
   sent (snd r) = sent (snd listed) /\
   last (console (snd r)) = Some (PrintListError err)) /\
  (fst (fst simple_listed) = [] /\ fst simple_r = 1%Z /\ fs (snd simple_r) = fs w /\
   sent (snd simple_r) = sent (snd simple_listed) /\
   last (console (snd simple_r)) = Some (PrintListError simple_err)).
Proof.
  intros Hhelp Hhelp' Herr Herr' listed simple_listed r simple_r.
  split.
  - split.
    + subst listed. now rewrite (full_getModelFiles_error_nil P E _ w err Herr).
    + now apply full_main_listing_fails.
  - split.
    + subst simple_listed.
      now rewrite (simple_getModelFiles_error_nil P E _ _ w simple_err Herr').
    + now apply simple_main_listing_fails.
Qed.

Lemma listing_error_is_fatal_witness :
  let err := wrapError "failed to fetch model info: "
               (errorString "dial tcp: connection refused") in
  let listed :=
    Full.getModelFiles unix Scenario.env
      (Full.configure unix Scenario.down_full_flags) Scenario.start in
  let simple_listed :=
    Simple.getModelFiles unix Scenario.env "https://huggingface.co/api"
      "down/model" Scenario.start in
  let r := Full.main unix Scenario.env Scenario.down_full_flags Scenario.start in
  let simple_r :=
    Simple.main unix Scenario.env Scenario.down_simple_flags Scenario.start in
  (fst (fst listed) = [] /\ fst r = 1%Z /\ fs (snd r) = fs Scenario.start /\
   sent (snd r) = sent (snd listed) /\
   last (console (snd r)) = Some (PrintListError err)) /\
  (fst (fst simple_listed) = [] /\ fst simple_r = 1%Z /\
   fs (snd simple_r) = fs Scenario.start /\
   sent (snd simple_r) = sent (snd simple_listed) /\
   last (console (snd simple_r)) = Some (PrintListError err)).
Proof.
  apply (listing_error_is_fatal unix Scenario.env Scenario.down_full_flags
           Scenario.down_simple_flags Scenario.start); reflexivity.
Defined.



Lemma full_exit_code P E flags w :
  fst (Full.main P E flags w)
  = if Full.help flags then 0%Z
    else match snd (fst (Full.getModelFiles P E (Full.configure P flags) w)) with
         | Some _ => 1%Z
         | None =>
             match mkdir_error E (fs w) (Full.ModelDir (Full.configure P flags)) with
             | Some _ => 1%Z
             | None => 0%Z
             end
         end.
Proof.
  destruct (Full.help flags) eqn:Hhelp.
  { now rewrite (full_main_help P E flags w Hhelp). }
  destruct (Full.getModelFiles P E (Full.configure P flags) w) as [[files e] wl] eqn:Hl.
  cbn [fst snd]. destruct e as [err|].
  { apply (full_main_listing_fails P E flags w err Hhelp). now rewrite Hl. }
  assert (Hlist : fst (Full.getModelFiles P E (Full.configure P flags) w)
                  = (files, None)) by now rewrite Hl.
  destruct (mkdir_error E (fs w) _) as [err|] eqn:Hmk.
  { apply (full_main_mkdir_fails P E flags w files err Hhelp Hlist Hmk). }
  destruct (full_main_run P E flags w files Hhelp Hlist Hmk)
    as (w1 & w2 & results & before & _ & _ & _ & _ & _ & _ & ->).
  reflexivity.
Qed.

Lemma simple_exit_code P E flags w :
  fst (Simple.main P E flags w)
  = if Simple.help flags then 0%Z
    else match snd (fst (Simple.getModelFiles P E "https://huggingface.co/api"
                           (Simple.modelName flags) w)) with
         | Some _ => 1%Z
         | None =>
             match mkdir_error E (fs w) (Simple.modelDir P flags) with
             | Some _ => 1%Z
             | None => 0%Z
             end
         end.
Proof.
  destruct (Simple.help flags) eqn:Hhelp.
  { now rewrite (simple_main_help P E flags w Hhelp). }
  destruct (Simple.getModelFiles P E "https://huggingface.co/api"
              (Simple.modelName flags) w) as [[files e] wl] eqn:Hl.
  cbn [fst snd]. destruct e as [err|].
  { apply (simple_main_listing_fails P E flags w err Hhelp). now rewrite Hl. }
  assert (Hlist : fst (Simple.getModelFiles P E "https://huggingface.co/api"
                         (Simple.modelName flags) w) = (files, None))
    by now rewrite Hl.
  destruct (mkdir_error E (fs w) _) as [err|] eqn:Hmk.
  { apply (simple_main_mkdir_fails P E flags w files err Hhelp Hlist Hmk). }
  destruct (simple_main_run P E flags w files Hhelp Hlist Hmk)
    as (w1 & w2 & results & before & _ & _ & _ & _ & _ & _ & ->).
  reflexivity.
Qed.

(** X2: the exit code of [main] (either version) is 0 with [-help];
    otherwise it is 1 exactly when [getModelFiles] returns an error or
    [os.MkdirAll] fails, and 0 in every other case, whatever the
    downloads do. *)
Theorem exit_code_of_main P E (flags : Full.Flags) (simple_flags : Simple.Flags) w :
  fst (Full.main P E flags w)
  = (if Full.help flags then 0%Z
     else match snd (fst (Full.getModelFiles P E (Full.configure P flags) w)) with
          | Some _ => 1%Z
          | None =>
              match mkdir_error E (fs w) (Full.ModelDir (Full.configure P flags)) with
              | Some _ => 1%Z
              | None => 0%Z
              end
          end) /\
  fst (Simple.main P E simple_flags w)
  = (if Simple.help simple_flags then 0%Z
     else match snd (fst (Simple.getModelFiles P E "https://huggingface.co/api"
                            (Simple.modelName simple_flags) w)) with
          | Some _ => 1%Z
          | None =>
              match mkdir_error E (fs w) (Simple.modelDir P simple_flags) with
              | Some _ => 1%Z
              | None => 0%Z
              end
          end).
Proof. split; [apply full_exit_code|apply simple_exit_code]. Qed.

Lemma getModelFiles_same_error P E config w :
  snd (fst (Full.getModelFiles P E config w))
  = snd (fst (Simple.getModelFiles P E (Full.APIURL config)
                (Full.ModelName config) w)).
Proof.
  unfold Full.getModelFiles, Simple.getModelFiles. rewrite !bind_run.
  destruct (fst (Get E _ w)) as [e|resp]; [reflexivity|].
  destruct (negb _); [reflexivity|].
  destruct (json_Decode _ _ _); reflexivity.
Qed.

(** X14: given the same flags, the two versions exit with the same
    code, in every world. *)
Theorem versions_exit_alike P E (flags : Full.Flags) (simple_flags : Simple.Flags) w :
  Simple.modelName simple_flags = Full.modelName flags ->
  Simple.outputDir simple_flags = Full.outputDir flags ->
  Simple.help simple_flags = Full.help flags ->
  fst (Full.main P E flags w) = fst (Simple.main P E simple_flags w).
Proof.
  intros Hname Hout Hhelp.
  rewrite full_exit_code, simple_exit_code, Hhelp, Hname.
  rewrite (getModelFiles_same_error P E (Full.configure P flags) w).
  replace (Simple.modelDir P simple_flags)
    with (Full.ModelDir (Full.configure P flags)); [reflexivity|].
  unfold Simple.modelDir. rewrite Hname, Hout. reflexivity.
Qed.

Lemma versions_exit_alike_witness :
  fst (Full.main unix Scenario.env Scenario.full_flags Scenario.start)
  = fst (Simple.main unix Scenario.env Scenario.simple_flags Scenario.start).
Proof.
  apply (versions_exit_alike unix Scenario.env Scenario.full_flags
           Scenario.simple_flags Scenario.start); reflexivity.
Defined.

(** ** What the loop does to the network and the disk *)

Lemma successes_le (results : list (option error)) :
  successes results <= List.length results.
Proof. unfold successes. apply List.filter_length_le. Qed.

Section LoopEffects.
Context {A : Type} (path : A -> string) (download : A -> M (option error)).
Context (requests : A -> list Request) (output : A -> string).


End LoopEffects.

(** X11: the loop of [main] (either version) never counts down and
    never counts more successes than it has entries: the count it returns
    lies between the count it starts with and that count plus the number
    of entries. *)
Theorem success_count_bounds P E config n i files k w
    (simple_files : list Simple.ModelInfo) :
  let count := fst (Full.download_all P E config n i files k w) in
  let simple_count :=
    fst (Simple.download_all P E (Full.BaseURL config) (Full.ModelName config)
           (Full.ModelDir config) n i simple_files k w) in
  (k <= count <= k + List.length files) /\
  (k <= simple_count <= k + List.length simple_files).
Proof.
  intros count simple_count. subst count simple_count. split.
  - destruct (full_download_all_attempts P E config n files i k w)
      as (results & Hrun & ->).
    apply attempts_length in Hrun. pose proof (successes_le results). lia.
  - destruct (simple_download_all_attempts P E (Full.BaseURL config)
                (Full.ModelName config) (Full.ModelDir config) n simple_files i k w)
      as (results & Hrun & ->).
    apply attempts_length in Hrun. pose proof (successes_le results). lia.
Qed.







(** ** What a whole run may change on the disk *)




(** ** The two versions, download by download *)




(** ** The model directory on Unix *)

Lemma slashes_to_underscores_slash_free (s : string) :
  slash_free (slashes_to_underscores s) = true.
Proof.
  unfold slash_free. induction s as [|c s IH]; [reflexivity|].
  simpl. rewrite IH, andb_true_r. unfold is_slash, slash.
  destruct (Ascii.eqb_spec c "/"); [reflexivity|].
  apply negb_true_iff. now apply Ascii.eqb_neq.
Qed.

Lemma slashes_to_underscores_idempotent (s : string) :
  slashes_to_underscores (slashes_to_underscores s) = slashes_to_underscores s.
Proof.
  induction s as [|c s IH]; [reflexivity|]. simpl. rewrite IH. f_equal.
  destruct (Ascii.eqb_spec c "/"); [reflexivity|].
  now apply Ascii.eqb_neq in n as ->.
Qed.

Lemma slashes_to_underscores_dots (s : string) :
  (slashes_to_underscores s = "" -> s = "") /\
  (slashes_to_underscores s = "." -> s = ".") /\
  (slashes_to_underscores s = ".." -> s = "..").
Proof.
  assert (Hdot : forall c, (if Ascii.eqb c "/" then "_"%char else c) = "."%char ->
                           c = "."%char).
  { intros c. destruct (Ascii.eqb c "/"); [discriminate|auto]. }
  split; [|split].
  - destruct s; [reflexivity|discriminate].
  - destruct s as [|c [|c' s]]; try discriminate.
    simpl. intros [= H]. now rewrite (Hdot c H).
  - destruct s as [|c [|c' [|c'' s]]]; try discriminate.
    simpl. intros [= H H']. now rewrite (Hdot c H), (Hdot c' H').
Qed.

(** X16: on Unix, for a model identifier other than "", "." and "..",
    the directory name [main] computes has no separator, and the model
    directory (either version) is the cleaned output root followed by
    this one name: a direct child of the output root, however many "/"
    the identifier has. *)
Theorem model_dir_is_child_of_output (flags : Full.Flags)
    (simple_flags : Simple.Flags) :
  Full.modelName flags <> "" ->
  Full.modelName flags <> "." ->
  Full.modelName flags <> ".." ->
  Simple.modelName simple_flags = Full.modelName flags ->
  Simple.outputDir simple_flags = Full.outputDir flags ->
  let name := slashes_to_underscores (Full.modelName flags) in
  slash_free name = true /\
  Full.ModelDir (Full.configure unix flags)
  = unix_dir_prefix (Full.outputDir flags) +:+ name /\
  Simple.modelDir unix simple_flags
  = unix_dir_prefix (Full.outputDir flags) +:+ name.
Proof.
  intros Hne Hdot Hdots Hname Hout name.
  destruct (slashes_to_underscores_dots (Full.modelName flags)) as (H0 & H1 & H2).
  assert (Hplain : plain_name name = true).
  { unfold plain_name. subst name. rewrite slashes_to_underscores_slash_free.
    repeat (apply andb_true_iff; split); try reflexivity;
      apply negb_true_iff, String.eqb_neq; auto. }
  split; [apply slashes_to_underscores_slash_free|].
  assert (Hfull : Full.ModelDir (Full.configure unix flags)
                  = unix_Join [Full.outputDir flags; name]).
  { unfold Full.configure, name. cbn [Full.ModelDir Full.ModelName Full.OutputDir].
    now rewrite ReplaceAll_slash. }
  assert (Hsimple : Simple.modelDir unix simple_flags
                    = unix_Join [Full.outputDir flags; name]).
  { unfold Simple.modelDir, name. now rewrite Hname, Hout, ReplaceAll_slash. }
  rewrite Hfull, Hsimple. split; now apply unix_Join_plain.
Qed.

Lemma model_dir_is_child_of_output_witness :
  slash_free "org_model" = true /\
  Full.ModelDir (Full.configure unix Scenario.full_flags) = "models/" +:+ "org_model" /\
  Simple.modelDir unix Scenario.simple_flags = "models/" +:+ "org_model".
Proof.
  apply (model_dir_is_child_of_output Scenario.full_flags Scenario.simple_flags);
    try reflexivity; discriminate.
Defined.

(** X17: two model identifiers that differ only in "/" against "_"
    get the same model directory (either version), so their files share
    one directory. *)
Theorem model_dirs_collide P (flags other : Full.Flags)
    (simple_flags simple_other : Simple.Flags) :
  Full.outputDir other = Full.outputDir flags ->
  slashes_to_underscores (Full.modelName other)
  = slashes_to_underscores (Full.modelName flags) ->
  Simple.outputDir simple_other = Simple.outputDir simple_flags ->
  slashes_to_underscores (Simple.modelName simple_other)
  = slashes_to_underscores (Simple.modelName simple_flags) ->
  Full.ModelDir (Full.configure P other) = Full.ModelDir (Full.configure P flags) /\
  Simple.modelDir P simple_other = Simple.modelDir P simple_flags.
Proof.
  intros Hout Hname Hout' Hname'.
  unfold Full.configure, Simple.modelDir.
  cbn [Full.ModelDir Full.ModelName Full.OutputDir].
  now rewrite !ReplaceAll_slash, Hout, Hname, Hout', Hname'.
Qed.

Lemma model_dirs_collide_witness :
  Full.ModelDir (Full.configure unix
    {| Full.modelName := "org_model"; Full.outputDir := "models";
       Full.help := false |})
  = Full.ModelDir (Full.configure unix Scenario.full_flags) /\
  Simple.modelDir unix
    {| Simple.modelName := "org_model"; Simple.outputDir := "models";
       Simple.help := false |}
  = Simple.modelDir unix Scenario.simple_flags.
Proof.
  apply (model_dirs_collide unix Scenario.full_flags
           {| Full.modelName := "org_model"; Full.outputDir := "models";
              Full.help := false |}
           Scenario.simple_flags
           {| Simple.modelName := "org_model"; Simple.outputDir := "models";
              Simple.help := false |}); reflexivity.
Defined.



(** ** The declared size *)


